(** * curate: the paper and Reddit digest pipelines

    A shallow embedding of the decision logic of
    [curate/functions/paper_summarizer/paper_summarizer.py] and
    [curate/functions/reddit_explorer/reddit_explorer.py]:
    the body-text extractor, the identifier history (load, dedupe, persist),
    the digest writers, the fan-out over the worker pool, the hot-post filter
    and the two [lambda_handler] entry points.

    Conventions.
    - A Python [str] is the list of its Unicode code points ([N]); [len] is
      [length].  Text handled here is free of lone surrogates, so a file
      written with [encoding="utf-8"] holds the text as written.
    - A [date] is its proleptic ordinal ([date.toordinal()]);
      [d - timedelta(days=i)] is [d - i].
    - The file store is the content of the output directory ([OUTPUT_DIR],
      the same for every run).  A path is kept as the key it is formatted
      from: [strftime("%Y-%m-%d")] is injective on dates.
    - Exceptions are explicit: a fallible computation returns [result]. *)

From Stdlib Require Import NArith ZArith QArith List Bool Ascii String Lia.
From Stdlib Require DecimalString.
From stdpp Require Import base option list gmap sets strings relations.

Local Open Scope N_scope.

(** ** Python strings *)

Abbreviation str := (list N).

(** A Python literal made of ASCII characters. *)
Definition py (s : string) : str :=
  List.map N_of_ascii (list_ascii_of_string s).

Definition LF : N := 0x0A.
Definition CR : N := 0x0D.

(** [str.isspace] on one code point (CPython's [_PyUnicode_IsWhitespace]). *)
Definition isspace (c : N) : bool :=
  ((0x09 <=? c) && (c <=? 0x0D)) || ((0x1C <=? c) && (c <=? 0x20))
  || (c =? 0x85) || (c =? 0xA0) || (c =? 0x1680)
  || ((0x2000 <=? c) && (c <=? 0x200A))
  || (c =? 0x2028) || (c =? 0x2029) || (c =? 0x202F) || (c =? 0x205F)
  || (c =? 0x3000).

(** The line boundaries of [str.splitlines]
    (CPython's [_PyUnicode_IsLinebreak]). *)
Definition islinebreak (c : N) : bool :=
  ((0x0A <=? c) && (c <=? 0x0D)) || ((0x1C <=? c) && (c <=? 0x1E))
  || (c =? 0x85) || (c =? 0x2028) || (c =? 0x2029).

Fixpoint lstrip (s : str) : str :=
  match s with
  | [] => []
  | c :: rest => if isspace c then lstrip rest else s
  end.

Definition rstrip (s : str) : str := reverse (lstrip (reverse s)).

(** [s.strip()] *)
Definition strip (s : str) : str := rstrip (lstrip s).

(** [sep.join(parts)] *)
Fixpoint join (sep : str) (parts : list str) : str :=
  match parts with
  | [] => []
  | [p] => p
  | p :: rest => p ++ sep ++ join sep rest
  end.

Fixpoint startswith (prefix s : str) : bool :=
  match prefix, s with
  | [], _ => true
  | _ :: _, [] => false
  | a :: prefix', b :: s' => (a =? b) && startswith prefix' s'
  end.

(** [needle in hay] *)
Fixpoint str_in (needle hay : str) : bool :=
  startswith needle hay ||
  match hay with
  | [] => false
  | _ :: hay' => str_in needle hay'
  end.

(** [s.replace(old, new)] for a non-empty [old]: occurrences are replaced
    from the left and do not overlap.  [skip] counts the code points of the
    occurrence just replaced that are still to be passed over. *)
Fixpoint replace_from (old new : str) (skip : nat) (s : str) : str :=
  match s with
  | [] => []
  | c :: rest =>
      match skip with
      | S k => replace_from old new k rest
      | O =>
          if startswith old s
          then new ++ replace_from old new (Nat.pred (length old)) rest
          else c :: replace_from old new 0 rest
      end
  end.

Definition replace (old new s : str) : str := replace_from old new 0 s.

(** [s.splitlines()]: the text is cut at every line boundary, a carriage
    return followed by a line feed counting as one boundary; the boundaries
    are dropped, and a boundary that ends the text opens no further line.
    [after_cr] records that the previous code point was a carriage return;
    [cur] is the current line, reversed. *)
Fixpoint splitlines_from (after_cr : bool) (cur : str) (s : str) : list str :=
  match s with
  | [] => match cur with [] => [] | _ => [reverse cur] end
  | c :: rest =>
      if after_cr && (c =? LF) then splitlines_from false [] rest
      else if islinebreak c then reverse cur :: splitlines_from (c =? CR) [] rest
      else splitlines_from false (c :: cur) rest
  end.

Definition splitlines (s : str) : list str := splitlines_from false [] s.

(** Reading a file opened in text mode with the default [newline=None]:
    carriage return + line feed, and a lone carriage return, are read as a
    line feed. *)
Fixpoint universal_newlines_from (after_cr : bool) (s : str) : str :=
  match s with
  | [] => []
  | c :: rest =>
      if after_cr && (c =? LF) then universal_newlines_from false rest
      else if c =? CR then LF :: universal_newlines_from true rest
      else c :: universal_newlines_from false rest
  end.

Definition universal_newlines (s : str) : str := universal_newlines_from false s.

(** A string without line boundaries. *)
Definition no_linebreak (s : str) : Prop :=
  Forall (λ c, islinebreak c = false) s.

(** [str.lower] restricted to ASCII text, where it maps A-Z to a-z and leaves
    the rest alone. *)
Definition ascii_lower (s : str) : str :=
  List.map (fun c => if (0x41 <=? c) && (c <=? 0x5A) then c + 0x20 else c) s.

(** ** Exceptions *)

Inductive exn :=
| FileNotFoundError
| AttributeError
| NameError (name : string)
| OtherException (what : string)   (* any other subclass of [Exception] *)
| KeyboardInterrupt                (* [BaseException] only *)
| SystemExit.                      (* [BaseException] only *)

Inductive result (A : Type) :=
| Ok (a : A)
| Raise (e : exn).
Arguments Ok {A} a.
Arguments Raise {A} e.

#[global] Instance result_ret : MRet result := fun A a => Ok a.
#[global] Instance result_bind : MBind result := fun A B k m =>
  match m with
  | Ok a => k a
  | Raise e => Raise e
  end.

(** [isinstance(e, Exception)] *)
Definition is_Exception (e : exn) : bool :=
  match e with
  | KeyboardInterrupt | SystemExit => false
  | _ => true
  end.

(** ** Body-text extractor ([PaperSummarizer._extract_body_text]) *)

Section BodyText.
(** [str.lower]: Python's Unicode lowercase mapping. *)
Variable lower : str → str.

Definition body_line_keywords : list str :=
  [ py "university"; py "lab"; py "department"; py "institute";
    py "corresponding author" ].

(** [_is_valid_body_line(line, min_length)] *)
Definition _is_valid_body_line (line : str) (min_length : nat) : bool :=
  if str_in (py "@") line then false
  else if existsb (fun kw => str_in kw (lower line)) body_line_keywords
  then false
  else if (length line <? min_length)%nat then false
  else if negb (str_in (py ".") line) then false else true.

(** The body-start scan: the index of the first line whose stripped form is
    at least [min_line_length] long and is a valid body line at
    [min_length=100]; [None] when the loop runs to its end. *)
Fixpoint body_start_scan (min_line_length : nat) (i : nat) (lines : list str)
  : option nat :=
  match lines with
  | [] => None
  | line :: rest =>
      let clean_line := strip line in
      if (length clean_line <? min_line_length)%nat
      then body_start_scan min_line_length (S i) rest
      else if _is_valid_body_line clean_line 100 then Some i
      else body_start_scan min_line_length (S i) rest
  end.

(** The test the scan applies to a line: long enough once stripped, and
    a valid body line at [min_length=100]. *)
Definition qualifies (min_line_length : nat) (line : str) : bool :=
  negb (length (strip line) <? min_line_length)%nat
  && _is_valid_body_line (strip line) 100.

Definition start_index (min_line_length : nat) (lines : list str) : nat :=
  default 0%nat (body_start_scan min_line_length 0 lines).

(** U+00C2, the mojibake character the extractor blanks out. *)
Definition A_circumflex : str := [0xC2].

(** The second loop: the lines kept, cleaned. *)
Fixpoint filter_lines (min_line_length : nat) (body_lines : list str)
  : list str :=
  match body_lines with
  | [] => []
  | line :: rest =>
      if (min_line_length <=? length (strip line))%nat
      then strip (replace A_circumflex (py " ") (strip line))
           :: filter_lines min_line_length rest
      else filter_lines min_line_length rest
  end.

(** The lines that are joined into the result. *)
Definition filtered_lines (min_line_length : nat) (full_text : str)
  : list str :=
  let lines := splitlines full_text in
  let body_lines := drop (start_index min_line_length lines) lines in
  filter_lines min_line_length body_lines.

(** The parsed page: [body] is [None] when the document has no [<body>],
    and otherwise the text [body.get_text(separator="\n", strip=True)] left
    once the header, nav, footer, script and style elements are
    decomposed. *)
Definition full_text (body : option str) : str :=
  match body with Some text => text | None => [] end.

(** [_extract_body_text], after the page is fetched and parsed.  Every step
    after the parse is total on strings. *)
Definition _extract_body_text (body : option str) (min_line_length : nat)
  : str :=
  join [LF] (filtered_lines min_line_length (full_text body)).

Definition default_min_line_length : nat := 40.
End BodyText.

(** ** The output directory *)

Abbreviation date := Z.

(** The files the pipelines name, by the key format of their [Config]:
    ["paper_summarizer/arxiv_ids-{date}.txt"],
    ["paper_summarizer/{date}.md"] and ["reddit_explorer/{date}.md"]. *)
Inductive key :=
| arxiv_ids_s3_key (d : date)
| paper_summary_index_s3_key (d : date)
| reddit_summary_index_s3_key (d : date).

#[global] Instance key_eq_dec : EqDecision key.
Proof. solve_decision. Defined.

#[global] Instance key_countable : Countable key.
Proof.
  refine (inj_countable'
    (fun k => match k with
              | arxiv_ids_s3_key d => (0%nat, d)
              | paper_summary_index_s3_key d => (1%nat, d)
              | reddit_summary_index_s3_key d => (2%nat, d)
              end)
    (fun p => match p with
              | (0%nat, d) => arxiv_ids_s3_key d
              | (1%nat, d) => paper_summary_index_s3_key d
              | (_, d) => reddit_summary_index_s3_key d
              end) _).
  by intros [].
Defined.

(** The text of every file present. *)
Abbreviation files := (gmap key str).

(** [open(path, "r", encoding="utf-8")] followed by [f.read()]. *)
Definition open_read (fs : files) (path : key) : result str :=
  match fs !! path with
  | Some content => Ok (universal_newlines content)
  | None => Raise FileNotFoundError
  end.

(** [open(path, "w", encoding="utf-8")] followed by [f.write(content)]:
    the directories are made as needed and the file is truncated. *)
Definition open_write (fs : files) (path : key) (content : str) : files :=
  <[path := content]> fs.

(** ** Identifier history ([PaperSummarizer]) *)

(** The identifiers on file for day [d]: the lines of that day's file, none
    when there is no file. *)
Definition saved_ids (fs : files) (d : date) : list str :=
  match fs !! arxiv_ids_s3_key d with
  | Some content => splitlines content
  | None => []
  end.

(** The loop of [_load_old_arxiv_ids] over the remaining day offsets. *)
Fixpoint load_old_arxiv_ids_loop (fs : files) (today : date)
    (offsets : list Z) (arxiv_ids : list str) : result (list str) :=
  match offsets with
  | [] => Ok arxiv_ids
  | i :: rest =>
      match open_read fs (arxiv_ids_s3_key (today - i)) with
      | Ok text =>
          load_old_arxiv_ids_loop fs today rest (arxiv_ids ++ splitlines text)
      | Raise FileNotFoundError =>
          load_old_arxiv_ids_loop fs today rest arxiv_ids
      | Raise e => Raise e
      end
  end.

(** [range(1, 8)] *)
Definition history_offsets : list Z := seqZ 1 7.

(** [_load_old_arxiv_ids()] run on day [today]. *)
Definition _load_old_arxiv_ids (fs : files) (today : date) : result (list str) :=
  load_old_arxiv_ids_loop fs today history_offsets [].

(** [_remove_duplicates(new_arxiv_ids)]:
    [list(set(new_arxiv_ids) - set(self._old_arxiv_ids))].  The order in which
    Python lists a set is not specified; [elements] fixes one. *)
Definition _remove_duplicates (old_arxiv_ids new_arxiv_ids : list str)
  : list str :=
  elements ((list_to_set new_arxiv_ids : gset str) ∖ list_to_set old_arxiv_ids).

(** [_save_arxiv_ids(new_arxiv_ids)] run on day [today]. *)
Definition _save_arxiv_ids (fs : files) (today : date)
    (new_arxiv_ids : list str) : files :=
  open_write fs (arxiv_ids_s3_key today) (join [LF] new_arxiv_ids).

(** ** Digest writers *)

Definition paper_separator : str := [LF; LF] ++ py "---" ++ [LF; LF].
Definition reddit_separator : str := [LF] ++ py "---" ++ [LF].

(** [PaperSummarizer._store_summaries(summaries)] run on day [today]. *)
Module PaperSummarizer.
Definition _store_summaries (fs : files) (today : date)
    (summaries : list str) : files :=
  let content := join paper_separator summaries in
  open_write fs (paper_summary_index_s3_key today) content.
End PaperSummarizer.

(** [RedditExplorer._store_summaries(summaries)] run on day [today]. *)
Module RedditExplorer.
Definition _store_summaries (fs : files) (today : date)
    (summaries : list str) : files :=
  open_write fs (reddit_summary_index_s3_key today)
    (join reddit_separator summaries).
End RedditExplorer.

(** ** Fan-out over the worker pool ([PaperSummarizer.__call__])

    [list(executor.map(worker_fn, items))] on a [ThreadPoolExecutor]:
    [map] submits one future per item, in order; each worker thread takes the
    oldest pending future, runs it, and stores its result in it; the caller
    reads the futures in submission order, waiting for each.  Which running
    future finishes next is up to the scheduler. *)

Section FanOut.
Context {A B : Type}.
Variable worker_fn : A → B.
Variable max_workers : nat.
Variable items : list A.

Inductive future :=
| Pending
| Running
| Finished (r : B).

Definition is_running (f : future) : bool :=
  match f with Running => true | _ => false end.

(** The futures in submission order, and the results read so far. *)
Record pool := Pool { futures : list future; collected : list B }.

Definition running (fs : list future) : nat :=
  length (List.filter is_running fs).

Definition submitted : pool :=
  Pool (replicate (length items) Pending) [].

Inductive step : pool → pool → Prop :=
| step_start fs out i :
    fs !! i = Some Pending →
    (∀ j, (j < i)%nat → fs !! j ≠ Some Pending) →
    (running fs < max_workers)%nat →
    step (Pool fs out) (Pool (<[i := Running]> fs) out)
| step_finish fs out i x :
    fs !! i = Some Running →
    items !! i = Some x →
    step (Pool fs out) (Pool (<[i := Finished (worker_fn x)]> fs) out)
| step_collect fs out r :
    fs !! length out = Some (Finished r) →
    step (Pool fs out) (Pool fs (out ++ [r])).

(** The caller has read every future: [list(...)] returns [collected]. *)
Definition returned (p : pool) : Prop :=
  length (collected p) = length items.

(** The steps still to come: a pending future is started and finished, a
    running one finished, and every result is read once. *)
Definition future_weight (f : future) : nat :=
  match f with
  | Pending => 2
  | Running => 1
  | Finished _ => 0
  end.

Definition work_left (p : pool) : nat :=
  (sum_list (future_weight <$> futures p)
   + (length items - length (collected p)))%nat.

(** What holds of every state of a run: there is one future per item, a
    finished future holds the worker's result for its own item, and the
    results read so far are those of the first items, in order. *)
Definition pool_inv (p : pool) : Prop :=
  length (futures p) = length items
  ∧ (∀ i r, futures p !! i = Some (Finished r) →
            ∃ x, items !! i = Some x ∧ r = worker_fn x)
  ∧ collected p = worker_fn <$> take (length (collected p)) items
  ∧ (length (collected p) ≤ length items)%nat.
End FanOut.

Arguments Pending {B}.
Arguments Running {B}.
Arguments Finished {B} r.

(** ** Hot posts ([RedditExplorer._retrieve_hot_posts]) *)

Inductive post_type := Image | Gallery | Video | Poll | Crosspost | Text | Link.

#[global] Instance post_type_eq_dec : EqDecision post_type.
Proof. solve_decision. Defined.

(** A media description: a dict of dicts of strings. *)
Abbreviation media_dict := (gmap string (gmap string str)).

(** A [praw] submission, by the attributes the explorer reads.  An attribute
    read through [getattr] with a default or tested with [hasattr] may be
    absent ([None] here); [media] and [secure_media], when present, hold
    [None] or a dict; [author] is [None] for a deleted account.
    [upvote_ratio] is a finite float, kept as the rational it denotes. *)
Module Submission.
Record t := {
  post_hint : option str;
  is_gallery : option bool;
  is_video : option bool;
  has_poll_data : bool;
  has_crosspost_parent : bool;
  is_self : bool;
  media : option (option media_dict);
  secure_media : option (option media_dict);
  author : option str;            (* [post.author.name] *)
  id : str;
  title : str;
  url : str;
  ups : Z;
  upvote_ratio : Q;
  selftext : str;
  thumbnail : str;
  permalink : str
}.
End Submission.

(** The [RedditPost] dataclass; [comments] and [summary] are not set by the
    constructor. *)
Module RedditPost.
Record t := {
  type : post_type;
  id : str;
  title : str;
  url : option str;
  upvotes : Z;
  text : str;
  permalink : str;
  thumbnail : str
}.
End RedditPost.

(** [Config.reddit_top_posts_limit] *)
Definition reddit_top_posts_limit : nat := 10.

(** The float literal [0.7]: the double 0x3FE6666666666666. *)
Definition float_0_7 : Q := 3152519739159347 # 4503599627370496.

Definition Qlt_bool (x y : Q) : bool := negb (Qle_bool y x).

(** [__judge_post_type(post)] *)
Definition __judge_post_type (post : Submission.t) : post_type :=
  if bool_decide (default [] (Submission.post_hint post) = py "image")
  then Image
  else if default false (Submission.is_gallery post) then Gallery
  else if default false (Submission.is_video post) then Video
  else if Submission.has_poll_data post then Poll
  else if Submission.has_crosspost_parent post then Crosspost
  else if Submission.is_self post then Text
  else Link.

(** [m.get("reddit_video", {}).get("fallback_url", None)]; on [None] the
    first [get] raises. *)
Definition fallback_url (m : option media_dict) : result (option str) :=
  match m with
  | Some d =>
      Ok (default ∅ (d !! "reddit_video"%string) !! "fallback_url"%string)
  | None => Raise AttributeError
  end.

(** [_get_video_url(post)] *)
Definition _get_video_url (post : Submission.t) : result (option str) :=
  match Submission.media post with
  | Some m => fallback_url m
  | None =>
      match Submission.secure_media post with
      | Some m => fallback_url m
      | None => Ok None
      end
  end.

Section HotPosts.
(** [str.lower]: Python's Unicode lowercase mapping. *)
Variable lower : str → str.

(** The four tests that drop a post. *)
Definition undesired (author : str) (post : Submission.t)
    (post_type : post_type) : bool :=
  bool_decide (author = py "AutoModerator")
  || str_in (py "megathread") (lower (Submission.title post))
  || Qlt_bool (Submission.upvote_ratio post) float_0_7
  || bool_decide (post_type ∈ [Gallery; Poll; Crosspost]).

Definition make_post (post : Submission.t) (post_type : post_type)
    (url : option str) : RedditPost.t :=
  {| RedditPost.type := post_type;
     RedditPost.id := Submission.id post;
     RedditPost.title := Submission.title post;
     RedditPost.url := url;
     RedditPost.upvotes := Submission.ups post;
     RedditPost.text := Submission.selftext post;
     RedditPost.thumbnail := Submission.thumbnail post;
     RedditPost.permalink :=
       py "https://www.reddit.com" ++ Submission.permalink post |}.

(** The loop over the listing; [posts] is the list built so far. *)
Fixpoint hot_posts_loop (listing : list Submission.t)
    (posts : list RedditPost.t) : result (list RedditPost.t) :=
  match listing with
  | [] => Ok posts
  | post :: rest =>
      let post_type := __judge_post_type post in
      url ← (if bool_decide (post_type = Video) then _get_video_url post
             else Ok (Some (Submission.url post)));
      author ← (match Submission.author post with
                | Some name => Ok name
                | None => Raise AttributeError
                end);
      if undesired author post post_type
      then hot_posts_loop rest posts
      else hot_posts_loop rest (posts ++ [make_post post post_type url])
  end.

(** [p] was made from a submission of [listing] that passes the filter. *)
Definition kept_from (listing : list Submission.t) (p : RedditPost.t) : Prop :=
  ∃ post author,
    post ∈ listing
    ∧ Submission.author post = Some author
    ∧ RedditPost.id p = Submission.id post
    ∧ RedditPost.title p = Submission.title post
    ∧ RedditPost.type p = __judge_post_type post
    ∧ undesired author post (__judge_post_type post) = false.

(** [_retrieve_hot_posts(subreddit, limit)]: [hot] is the subreddit's hot
    listing, of which [.hot(limit=limit)] yields the first [limit]. *)
Definition _retrieve_hot_posts (hot : list Submission.t)
    (limit : option nat) : result (list RedditPost.t) :=
  let limit := default reddit_top_posts_limit limit in
  hot_posts_loop (take limit hot) [].
End HotPosts.

(** ** Entry points ([lambda_handler]) *)

(** The built-in functions, and the exception classes the two modules name. *)
Definition builtin_names : list string :=
  [ "abs"; "aiter"; "all"; "anext"; "any"; "ascii"; "bin"; "bool";
    "breakpoint"; "bytearray"; "bytes"; "callable"; "chr"; "classmethod";
    "compile"; "complex"; "delattr"; "dict"; "dir"; "divmod"; "enumerate";
    "eval"; "exec"; "filter"; "float"; "format"; "frozenset"; "getattr";
    "globals"; "hasattr"; "hash"; "help"; "hex"; "id"; "input"; "int";
    "isinstance"; "issubclass"; "iter"; "len"; "list"; "locals"; "map";
    "max"; "memoryview"; "min"; "next"; "object"; "oct"; "open"; "ord";
    "pow"; "print"; "property"; "range"; "repr"; "reversed"; "round"; "set";
    "setattr"; "slice"; "sorted"; "staticmethod"; "str"; "sum"; "super";
    "tuple"; "type"; "vars"; "zip"; "__import__";
    "Exception"; "FileNotFoundError" ]%string.

(** The names bound at the top level of [paper_summarizer.py]. *)
Definition paper_summarizer_globals : list string :=
  [ "concurrent"; "inspect"; "os"; "re"; "dataclass"; "field"; "date";
    "timedelta"; "Any"; "arxiv"; "requests"; "BeautifulSoup"; "tqdm";
    "create_client"; "Config"; "remove_tex_backticks";
    "remove_outer_markdown_markers"; "remove_outer_singlequotes";
    "PaperInfo"; "PaperIdRetriever"; "PaperSummarizer";
    "lambda_handler" ]%string.

(** The names bound at the top level of [reddit_explorer.py]. *)
Definition reddit_explorer_globals : list string :=
  [ "inspect"; "os"; "tomllib"; "dataclass"; "field"; "date"; "Any";
    "Literal"; "praw"; "create_client"; "_MARKDOWN_FORMAT"; "Config";
    "RedditPost"; "RedditExplorer"; "lambda_handler" ]%string.

(** Evaluating a global name. *)
Definition load_name (globals : list string) (name : string) : result unit :=
  if bool_decide (name ∈ globals ++ builtin_names) then Ok ()
  else Raise (NameError name).

(** [try: body  except Exception as e: handler] *)
Definition try_except_Exception {A} (body : result A)
    (handler : exn → result A) : result A :=
  match body with
  | Ok a => Ok a
  | Raise e => if is_Exception e then handler e else Raise e
  end.

Record response := { statusCode : Z }.

(** The event dict, by its string entries. *)
Abbreviation event := (gmap string str).

(** [event.get("source") == "aws.events"] *)
Definition scheduled (ev : event) : bool :=
  bool_decide (ev !! "source"%string = Some (py "aws.events")).

(** [lambda_handler] of [paper_summarizer.py]; [pipeline] is the outcome of
    [PaperSummarizer()] followed by [paper_summarizer_()]. *)
Module paper_summarizer.
Definition lambda_handler (ev : event) (pipeline : result ())
  : result response :=
  let g := paper_summarizer_globals in
  load_name g "pprint";;                         (* pprint(event) *)
  try_except_Exception
    (if scheduled ev
     then load_name g "PaperSummarizer";; pipeline;; Ok {| statusCode := 200 |}
     else Ok {| statusCode := 200 |})
    (fun e =>
       load_name g "pprint";; load_name g "traceback";;
                                                 (* pprint(traceback.format_exc()) *)
       load_name g "pprint";;                    (* pprint(e) *)
       Ok {| statusCode := 500 |}).
End paper_summarizer.

(** [lambda_handler] of [reddit_explorer.py]; [pipeline] is the outcome of
    [RedditExplorer()] followed by [reddit_explorer_()]. *)
Module reddit_explorer.
Definition lambda_handler (ev : event) (pipeline : result ())
  : result response :=
  let g := reddit_explorer_globals in
  load_name g "print";;                          (* print(event) *)
  try_except_Exception
    (if scheduled ev
     then load_name g "RedditExplorer";; pipeline;; Ok {| statusCode := 200 |}
     else Ok {| statusCode := 200 |})
    (fun e =>
       load_name g "print";; load_name g "traceback";;
                                                 (* print(traceback.format_exc()) *)
       load_name g "print";;                     (* print(e) *)
       Ok {| statusCode := 500 |}).
End reddit_explorer.

(** ** Paper identifiers *)

(** [s.split(sep)] for a separator of one character: the text is cut at
    every occurrence, empty pieces included.  [cur] is the current piece,
    reversed. *)
Fixpoint split_from (sep : N) (cur : str) (s : str) : list str :=
  match s with
  | [] => [reverse cur]
  | c :: rest =>
      if c =? sep then reverse cur :: split_from sep [] rest
      else split_from sep (c :: cur) rest
  end.

Definition split (sep : N) (s : str) : list str := split_from sep [] s.

(** [s.split("/")[-1]] *)
Definition last_path_segment (s : str) : str :=
  default [] (last (split 0x2F s)).

(** The head of [_retrieve_paper_info(id_or_url)]: the identifier that is
    searched for and whose page is fetched. *)
Definition paper_info_arxiv_id (id_or_url : str) : str :=
  if startswith (py "https://arxiv.org/") id_or_url
  then last_path_segment id_or_url
  else id_or_url.

(** What [requests.get] followed by [raise_for_status] and the parse leave
    of the listing page: a [RequestException], or, for each [<article>], the
    [href] of each of its [<a>] elements ([None] for an anchor without
    one). *)
Inductive listing_response :=
| RequestException
| Articles (anchors : list (list (option str))).

Section PaperIds.
(** The characters matched by [\d]: the Unicode decimal digits. *)
Variable isdigit : N → bool.

(** A literal of the pattern, matched at the head of [s]; what follows it. *)
Definition match_literal (literal s : str) : option str :=
  if startswith literal s then Some (drop (length literal) s) else None.

(** [\d{n}] matched at the head of [s]; what follows it. *)
Fixpoint match_digits (n : nat) (s : str) : option str :=
  match n with
  | O => Some s
  | S n' =>
      match s with
      | c :: rest => if isdigit c then match_digits n' rest else None
      | [] => None
      end
  end.

(** [re.match(r"^/papers/\d{4}\.\d{5}$", href)] finds a match; [$] matches
    at the end of the text and before a line feed that ends it. *)
Definition is_paper_href (href : str) : bool :=
  match
    rest ← match_literal (py "/papers/") href;
    rest ← match_digits 4 rest;
    rest ← match_literal (py ".") rest;
    match_digits 5 rest
  with
  | Some rest => bool_decide (rest = []) || bool_decide (rest = [LF])
  | None => false
  end.

(** The loop over the anchors of one article; matching an absent [href]
    raises [TypeError]. *)
Fixpoint anchors_loop (anchors : list (option str)) (arxiv_ids : list str)
  : result (list str) :=
  match anchors with
  | [] => Ok arxiv_ids
  | None :: _ => Raise (OtherException "TypeError")
  | Some href :: rest =>
      if is_paper_href href
      then anchors_loop rest (arxiv_ids ++ [last_path_segment href])
      else anchors_loop rest arxiv_ids
  end.

Fixpoint articles_loop (articles : list (list (option str)))
    (arxiv_ids : list str) : result (list str) :=
  match articles with
  | [] => Ok arxiv_ids
  | anchors :: rest =>
      arxiv_ids ← anchors_loop anchors arxiv_ids;
      articles_loop rest arxiv_ids
  end.

(** [PaperIdRetriever.retrieve_from_hugging_face()], given the outcome of the
    request.  A [RequestException] is caught and leaves the list empty. *)
Definition retrieve_from_hugging_face (response : listing_response)
  : result (list str) :=
  arxiv_ids ← match response with
              | RequestException => Ok []
              | Articles articles => articles_loop articles []
              end;
  Ok (elements (list_to_set arxiv_ids : gset str)).
End PaperIds.

(** [\d] restricted to ASCII text, where it matches 0-9. *)
Definition ascii_isdigit (c : N) : bool := (0x30 <=? c) && (c <=? 0x39).

(** ** Summary clean-up ([_stylize_paper_info]) *)

(** The first occurrence of [needle] in [s]: what precedes it and what
    follows it. *)
Fixpoint find_first (needle s : str) : option (str * str) :=
  if startswith needle s then Some ([], drop (length needle) s)
  else
    match s with
    | [] => None
    | c :: rest => prod_map (cons c) id <$> find_first needle rest
    end.

(** The last occurrence of [needle] in [s]. *)
Definition find_last (needle s : str) : option (str * str) :=
  (λ p, (reverse p.2, reverse p.1))
    <$> find_first (reverse needle) (reverse s).

(** [re.sub(pattern, lambda m: m.group(1), text, flags=re.DOTALL)] for a
    pattern made of the literal [opening], one greedy group of any
    characters, and the literal [closing]: the leftmost match starts at the
    first [opening], the group runs to the last [closing] after it, and
    nothing after that match can match again. *)
Definition remove_outer (opening closing text : str) : str :=
  match find_first opening text with
  | Some (before, rest) =>
      match find_last closing rest with
      | Some (group, after) => before ++ group ++ after
      | None => text
      end
  | None => text
  end.

Definition backtick : N := 0x60.
Definition dollar : N := 0x24.

(** [remove_outer_markdown_markers(text)]: three backticks and the word
    markdown open, three backticks close. *)
Definition remove_outer_markdown_markers (text : str) : str :=
  remove_outer (replicate 3 backtick ++ py "markdown") (replicate 3 backtick)
    text.

(** [remove_outer_singlequotes(text)]: three single quotes open and
    close. *)
Definition remove_outer_singlequotes (text : str) : str :=
  remove_outer (py "'''") (py "'''") text.

(** [remove_tex_backticks(text)]: the pattern, anchored at both ends and
    used without flags, matches when the whole text, up to a line feed that
    ends it, is a backtick, a dollar, any characters but line feeds, a
    dollar and a backtick; the two backticks are dropped. *)
Definition remove_tex_backticks (text : str) : str :=
  let '(body, tail) :=
    match last text with
    | Some c => if c =? LF then (removelast text, [LF]) else (text, [])
    | None => (text, [])
    end in
  if startswith [backtick; dollar] body
     && startswith [backtick; dollar] (reverse body)
     && (4 <=? length body)%nat
     && negb (str_in [LF] body)
  then drop 1 (removelast body) ++ tail
  else text.

(** [_stylize_paper_info(paper_info)], on [paper_info.summary]. *)
Definition _stylize_paper_info (summary : str) : str :=
  let summary := remove_tex_backticks summary in
  let summary := remove_outer_markdown_markers summary in
  let summary := remove_outer_singlequotes summary in
  summary.

(** ** The paper pipeline ([PaperSummarizer.__call__]) *)

(** [list(executor.map(f, items))] when [f] may raise: the futures are read
    in submission order, and the first one that holds an exception raises
    it. *)
Fixpoint map_results {A B} (f : A → result B) (items : list A)
  : result (list B) :=
  match items with
  | [] => Ok []
  | x :: rest =>
      y ← f x;
      ys ← map_results f rest;
      Ok (y :: ys)
  end.

Section PaperPipeline.
(** The characters matched by [\d]. *)
Variable isdigit : N → bool.
(** The collaborators of [_process_paper], as a function of the identifier
    searched for: the arXiv search, the fetch and extraction of the page,
    and the summarization call; any of them may raise. *)
Variable summarize : str → result str.

(** [_process_paper(arxiv_id)] *)
Definition _process_paper (arxiv_id : str) : result str :=
  summary ← summarize (paper_info_arxiv_id arxiv_id);
  Ok (_stylize_paper_info summary).

(** [PaperSummarizer()] followed by [__call__()] on day [today], given the
    outcome of the listing request.  The two files are written only after
    every paper is processed. *)
Definition PaperSummarizer__call__ (fs : files) (today : date)
    (response : listing_response) : files * result () :=
  match
    _old_arxiv_ids ← _load_old_arxiv_ids fs today;
    new_arxiv_ids ← retrieve_from_hugging_face isdigit response;
    let new_arxiv_ids := _remove_duplicates _old_arxiv_ids new_arxiv_ids in
    markdowns ← map_results _process_paper new_arxiv_ids;
    Ok (new_arxiv_ids, markdowns)
  with
  | Raise e => (fs, Raise e)
  | Ok (new_arxiv_ids, markdowns) =>
      let fs := _save_arxiv_ids fs today new_arxiv_ids in
      (PaperSummarizer._store_summaries fs today markdowns, Ok ())
  end.
End PaperPipeline.

(** ** The Reddit pipeline ([RedditExplorer.__call__]) *)

(** [str(n)] for an integer. *)
Definition str_of_int (n : Z) : str :=
  py (DecimalString.NilZero.string_of_int (Z.to_int n)).

(** The [image_or_video_or_none] field of [_stylize_post]; an absent URL is
    formatted as the text None. *)
Definition image_or_video_or_none (post : RedditPost.t) : str :=
  if bool_decide (RedditPost.type post = Image)
  then py "![Image](" ++ default (py "None") (RedditPost.url post) ++ py ")"
  else
    match RedditPost.type post, RedditPost.url post with
    | Video, Some url =>
        py "<video src=" ++ [0x22] ++ url ++ [0x22]
        ++ py " controls controls style=" ++ [0x22]
        ++ py "width: 100%; height: auto; max-height: 500px;" ++ [0x22]
        ++ py "></video>"
    | _, _ => []
    end.

(** [_stylize_post(post)]: [_MARKDOWN_FORMAT] filled in; [summary] is
    [post.summary]. *)
Definition _stylize_post (post : RedditPost.t) (summary : str) : str :=
  [LF] ++ py "# " ++ RedditPost.title post ++ [LF; LF]
  ++ py "**Upvotes**: " ++ str_of_int (RedditPost.upvotes post) ++ [LF; LF]
  ++ image_or_video_or_none post ++ [LF; LF]
  ++ py "[View on Reddit](" ++ RedditPost.permalink post ++ py ")" ++ [LF; LF]
  ++ summary ++ [LF].

Section RedditPipeline.
(** [str.lower]: Python's Unicode lowercase mapping. *)
Variable lower : str → str.
(** The collaborators of the inner loop, as a function of the post: the top
    comments are retrieved and the summarization call is made; either may
    raise. *)
Variable summarize_post : RedditPost.t → result str.

(** The submission's URL as the loop of [_retrieve_hot_posts] computes it. *)
Definition post_url (post : Submission.t) : result (option str) :=
  if bool_decide (__judge_post_type post = Video) then _get_video_url post
  else Ok (Some (Submission.url post)).

(** The loop of [_retrieve_hot_posts] gets past [post] without raising. *)
Definition readable (post : Submission.t) : bool :=
  match post_url post, Submission.author post with
  | Ok _, Some _ => true
  | _, _ => false
  end.

(** [post] passes the four tests. *)
Definition desired (post : Submission.t) : bool :=
  match Submission.author post with
  | Some author => negb (undesired lower author post (__judge_post_type post))
  | None => false
  end.

(** The [RedditPost] built from [post]. *)
Definition post_of (post : Submission.t) : RedditPost.t :=
  make_post post (__judge_post_type post)
    (match post_url post with Ok url => url | Raise _ => None end).

(** The inner loop of [__call__] over the posts of one subreddit. *)
Fixpoint posts_loop (posts : list RedditPost.t) (markdowns : list str)
  : result (list str) :=
  match posts with
  | [] => Ok markdowns
  | post :: rest =>
      summary ← summarize_post post;
      posts_loop rest (markdowns ++ [_stylize_post post summary])
  end.

(** The outer loop of [__call__]; [hots] holds the hot listing of each
    configured subreddit, in order. *)
Fixpoint subreddits_loop (hots : list (list Submission.t))
    (markdowns : list str) : result (list str) :=
  match hots with
  | [] => Ok markdowns
  | hot :: rest =>
      posts ← _retrieve_hot_posts lower hot None;
      markdowns ← posts_loop posts markdowns;
      subreddits_loop rest markdowns
  end.

(** [RedditExplorer.__call__()] on day [today]. *)
Definition RedditExplorer__call__ (fs : files) (today : date)
    (hots : list (list Submission.t)) : files * result () :=
  match subreddits_loop hots [] with
  | Raise e => (fs, Raise e)
  | Ok markdowns =>
      (RedditExplorer._store_summaries fs today markdowns, Ok ())
  end.
End RedditPipeline.

(** ** The parsed page ([BeautifulSoup(response.text, "html.parser")]) *)

(** An element of the tree the parser builds.  [NavigableString] is a plain
    text node; [Comment] stands for the strings that [get_text] does not
    yield (comments, declarations, the doctype). *)
#[warnings="-register-all"]
Inductive page_element :=
| NavigableString (text : str)
| Comment (text : str)
| Tag (name : str) (contents : list page_element).

(** The outcome of the parse: the tree, or the [ParserRejectedMarkup] that
    BeautifulSoup raises when [html.parser] gives up on the markup. *)
Inductive parse_result :=
| ParserRejectedMarkup
| BeautifulSoup (contents : list page_element).

(** The names given to [body.find_all]. *)
Definition decomposed_tags : list str :=
  [py "header"; py "nav"; py "footer"; py "script"; py "style"].

(** [for tag in e.find_all(decomposed_tags): tag.decompose()], seen from
    the parent of [e]: what is left of [e] among its siblings. *)
Fixpoint decompose (e : page_element) : list page_element :=
  match e with
  | Tag name contents =>
      if bool_decide (name ∈ decomposed_tags) then []
      else [Tag name (flat_map decompose contents)]
  | _ => [e]
  end.

(** The strings that [get_text(strip=True)] yields for [e], in document
    order: each plain text node, stripped, unless that leaves nothing. *)
Fixpoint stripped_strings (e : page_element) : list str :=
  match e with
  | NavigableString text =>
      match strip text with
      | [] => []
      | stripped => [stripped]
      end
  | Comment _ => []
  | Tag _ contents => flat_map stripped_strings contents
  end.

(** [tag.get_text(separator="\n", strip=True)] on a tag with [contents]. *)
Definition get_text (contents : list page_element) : str :=
  join [LF] (flat_map stripped_strings contents).

(** [e.find("body")] extended to [e] itself: the contents of the first
    [body] tag in document order. *)
Fixpoint find_body (e : page_element) : option (list page_element) :=
  match e with
  | Tag name contents =>
      if bool_decide (name = py "body") then Some contents
      else
        (fix first (l : list page_element) : option (list page_element) :=
           match l with
           | [] => None
           | c :: l' =>
               match find_body c with
               | Some body => Some body
               | None => first l'
               end
           end) contents
  | _ => None
  end.

(** [soup.body] *)
Fixpoint soup_body (soup : list page_element)
  : option (list page_element) :=
  match soup with
  | [] => None
  | e :: rest =>
      match find_body e with
      | Some body => Some body
      | None => soup_body rest
      end
  end.

(** The text handed to the line loops: [None] when the document has no
    body, and otherwise the text of the body once the five kinds of element
    are decomposed. *)
Definition body_text (soup : list page_element) : option str :=
  match soup_body soup with
  | Some body => Some (get_text (flat_map decompose body))
  | None => None
  end.

(** An element that leaves no text in the body: one of the five kinds of
    element, white space, a comment, or an element that holds nothing but
    such elements. *)
Fixpoint boilerplate (e : page_element) : Prop :=
  match e with
  | NavigableString text => strip text = []
  | Comment _ => True
  | Tag name contents =>
      name ∈ decomposed_tags
      ∨ (fix all (l : list page_element) : Prop :=
           match l with
           | [] => True
           | c :: l' => boilerplate c ∧ all l'
           end) contents
  end.

Section BodyTextOfPage.
(** [str.lower]: Python's Unicode lowercase mapping. *)
Variable lower : str → str.

(** [_extract_body_text] from the parse on: the parser's exception is not
    caught, and an accepted page goes through the decomposition, [get_text]
    and the two line loops. *)
Definition _extract_body_text_of_page (page : parse_result)
    (min_line_length : nat) : result str :=
  match page with
  | ParserRejectedMarkup => Raise (OtherException "ParserRejectedMarkup")
  | BeautifulSoup soup =>
      Ok (_extract_body_text lower (body_text soup) min_line_length)
  end.
End BodyTextOfPage.

(** * Properties *)

(** ** Strings *)

Lemma startswith_spec (prefix s : str) :
  startswith prefix s = true ↔ ∃ post, s = prefix ++ post.
Proof.
  revert s. induction prefix as [|a prefix IH]; intros s; simpl.
  - split; [eauto | done].
  - destruct s as [|b s]; simpl.
    + split; [done | by intros [? ?]].
    + rewrite andb_true_iff, N.eqb_eq, IH. split.
      * intros [-> [post ->]]. eauto.
      * intros [post [= -> ->]]. eauto.
Qed.

(** [str_in] is containment as a contiguous substring. *)
Lemma str_in_spec (needle hay : str) :
  str_in needle hay = true ↔ ∃ pre post, hay = pre ++ needle ++ post.
Proof.
  induction hay as [|c hay IH]; simpl.
  - rewrite orb_false_r, startswith_spec. split.
    + intros [post H]. exists [], post. done.
    + intros (pre & post & H). symmetry in H.
      apply app_eq_nil in H as [_ H]. apply app_eq_nil in H as [-> ->].
      by exists [].
  - rewrite orb_true_iff, startswith_spec, IH. split.
    + intros [[post H] | (pre & post & ->)].
      * exists [], post. done.
      * exists (c :: pre), post. done.
    + intros ([|c' pre] & post & H); simpl in H.
      * left. eauto.
      * right. injection H as -> ->. eauto.
Qed.

(** For a single character, [str_in] is membership. *)
Lemma str_in_single (c : N) (s : str) : str_in [c] s = true ↔ c ∈ s.
Proof.
  induction s as [|a s IH]; simpl.
  - split; [done | by intros ?%elem_of_nil].
  - rewrite orb_true_iff, andb_true_r, N.eqb_eq, IH, elem_of_cons. done.
Qed.

Lemma str_in_single_false (c : N) (s : str) : str_in [c] s = false ↔ c ∉ s.
Proof. rewrite <- str_in_single. by destruct (str_in [c] s). Qed.

(** Replacing one character by one character is a pointwise map. *)
Lemma replace_single (a b : N) (s : str) :
  replace [a] [b] s = (λ c, if c =? a then b else c) <$> s.
Proof.
  unfold replace. induction s as [|c s IH]; [done|].
  cbn [replace_from startswith length Nat.pred]. rewrite andb_true_r, IH.
  rewrite fmap_cons, (N.eqb_sym a c). by destruct (c =? a).
Qed.

Lemma length_replace_single (a b : N) (s : str) :
  length (replace [a] [b] s) = length s.
Proof. by rewrite replace_single, length_fmap. Qed.

Lemma elem_of_replace_single (a b c : N) (s : str) :
  c ∈ replace [a] [b] s → (c = b ∧ a ∈ s) ∨ (c ≠ a ∧ c ∈ s).
Proof.
  rewrite replace_single. intros (d & -> & Hd)%list_elem_of_fmap.
  destruct (N.eqb_spec d a) as [->|Hne]; auto.
Qed.

Lemma lstrip_suffix (s : str) :
  ∃ ws, s = ws ++ lstrip s ∧ Forall (λ c, isspace c = true) ws.
Proof.
  induction s as [|c s (ws & Hs & Hws)]; simpl.
  - by exists [].
  - destruct (isspace c) eqn:Hc.
    + exists (c :: ws). split; [by rewrite Hs at 1 | by constructor].
    + by exists [].
Qed.

Lemma lstrip_head (s : str) (c : N) :
  head (lstrip s) = Some c → isspace c = false.
Proof.
  induction s as [|a s IH]; simpl; [done|].
  destruct (isspace a) eqn:Ha; [done|]. by intros [= <-].
Qed.

Lemma lstrip_fixed (s : str) :
  (∀ c, head s = Some c → isspace c = false) → lstrip s = s.
Proof. destruct s as [|a s]; simpl; [done|]. intros H. by rewrite (H a). Qed.

Lemma rstrip_prefix (s : str) :
  ∃ ws, s = rstrip s ++ ws ∧ Forall (λ c, isspace c = true) ws.
Proof.
  unfold rstrip. destruct (lstrip_suffix (reverse s)) as (ws & Hs & Hws).
  exists (reverse ws). split.
  - rewrite <- reverse_app, <- Hs. by rewrite reverse_involutive.
  - by apply Forall_reverse.
Qed.

Lemma rstrip_last (s : str) (c : N) :
  last (rstrip s) = Some c → isspace c = false.
Proof. unfold rstrip. rewrite last_reverse. apply lstrip_head. Qed.

Lemma rstrip_fixed (s : str) :
  (∀ c, last s = Some c → isspace c = false) → rstrip s = s.
Proof.
  intros H. unfold rstrip. rewrite lstrip_fixed.
  - apply reverse_involutive.
  - intros c. rewrite head_reverse. apply H.
Qed.

Lemma strip_fixed (s : str) :
  (∀ c, head s = Some c → isspace c = false) →
  (∀ c, last s = Some c → isspace c = false) →
  strip s = s.
Proof.
  intros Hh Hl. unfold strip. rewrite (lstrip_fixed s Hh). by apply rstrip_fixed.
Qed.

(** [strip] cuts white space off both ends and nothing else. *)
Lemma strip_decompose (s : str) :
  ∃ ws1 ws2, s = ws1 ++ strip s ++ ws2.
Proof.
  destruct (lstrip_suffix s) as (ws1 & Hs & _).
  destruct (rstrip_prefix (lstrip s)) as (ws2 & Hl & _).
  exists ws1, ws2. unfold strip. by rewrite <- Hl.
Qed.

Lemma elem_of_strip (c : N) (s : str) : c ∈ strip s → c ∈ s.
Proof.
  destruct (strip_decompose s) as (ws1 & ws2 & Hs). intros Hc.
  rewrite Hs, !elem_of_app. auto.
Qed.

Lemma length_strip (s : str) : (length (strip s) ≤ length s)%nat.
Proof.
  destruct (strip_decompose s) as (ws1 & ws2 & Hs).
  rewrite Hs at 2. rewrite !length_app. lia.
Qed.

Lemma strip_head (s : str) (c : N) :
  head (strip s) = Some c → isspace c = false.
Proof.
  unfold strip. destruct (rstrip_prefix (lstrip s)) as (ws & Hl & _).
  intros Hc. apply (lstrip_head s). rewrite Hl.
  destruct (rstrip (lstrip s)); [done|]. done.
Qed.

Lemma strip_last (s : str) (c : N) :
  last (strip s) = Some c → isspace c = false.
Proof. apply rstrip_last. Qed.

(** ** Lines *)

Lemma splitlines_from_no_linebreak (s : str) :
  ∀ after_cr cur l,
    no_linebreak cur → l ∈ splitlines_from after_cr cur s → no_linebreak l.
Proof.
  induction s as [|c s IH]; intros f cur l Hcur; simpl.
  - destruct cur as [|a cur]; [by intros ?%elem_of_nil|].
    intros ->%list_elem_of_singleton. by apply Forall_reverse.
  - destruct (f && (c =? LF)); [by apply IH; constructor|].
    destruct (islinebreak c) eqn:Hc.
    + intros [->|Hl]%elem_of_cons; [by apply Forall_reverse|].
      revert Hl. by apply IH; constructor.
    + apply IH. by constructor.
Qed.

(** No line of [splitlines] holds a line boundary. *)
Lemma splitlines_no_linebreak (s l : str) : l ∈ splitlines s → no_linebreak l.
Proof. apply splitlines_from_no_linebreak. constructor. Qed.

Lemma splitlines_from_universal (s : str) :
  ∀ after_cr cur,
    (after_cr = true → cur = []) →
    splitlines_from false cur (universal_newlines_from after_cr s)
    = splitlines_from after_cr cur s.
Proof.
  induction s as [|c s IH]; intros f cur Hf; [done|].
  cbn [splitlines_from universal_newlines_from].
  destruct (f && (c =? LF)) eqn:Hskip.
  - apply andb_true_iff in Hskip as [-> _]. rewrite (Hf eq_refl).
    by apply IH.
  - destruct (c =? CR) eqn:Hcr; cbn [splitlines_from andb].
    + apply N.eqb_eq in Hcr as ->.
      change (islinebreak LF) with true. change (islinebreak CR) with true.
      change (LF =? CR) with false. change (CR =? CR) with true.
      cbn iota. f_equal. by apply IH.
    + rewrite Hcr. destruct (islinebreak c); [f_equal|]; by apply IH.
Qed.

(** Reading with universal newlines does not change the lines. *)
Lemma splitlines_universal_newlines (s : str) :
  splitlines (universal_newlines s) = splitlines s.
Proof. by apply splitlines_from_universal. Qed.

Lemma splitlines_from_run (x : str) :
  ∀ after_cr cur s,
    no_linebreak x → x ≠ [] ∨ after_cr = false →
    splitlines_from after_cr cur (x ++ s)
    = splitlines_from false (reverse x ++ cur) s.
Proof.
  induction x as [|c x IH]; intros f cur s Hx Hf.
  - destruct Hf as [?| ->]; done.
  - apply Forall_cons in Hx as [Hc Hx]. simpl.
    assert ((c =? LF) = false) as ->.
    { apply N.eqb_neq. intros ->. done. }
    rewrite andb_false_r, Hc, IH by auto.
    by rewrite reverse_cons, <- app_assoc.
Qed.

Lemma splitlines_from_LF (after_cr : bool) (cur s : str) :
  splitlines_from after_cr cur (LF :: s)
  = (if after_cr then [] else [reverse cur]) ++ splitlines_from false [] s.
Proof. by destruct after_cr. Qed.

(** A line feed closes the current line whatever came before it. *)
Lemma splitlines_from_reset (pre : str) :
  ∀ after_cr cur, ∃ ls, ∀ rest,
    splitlines_from after_cr cur (pre ++ LF :: rest)
    = ls ++ splitlines_from false [] rest.
Proof.
  induction pre as [|c pre IH]; intros f cur.
  - eexists. intros rest. apply splitlines_from_LF.
  - simpl. destruct (f && (c =? LF)).
    + destruct (IH false []) as [ls Hls]. by exists ls.
    + destruct (islinebreak c).
      * destruct (IH (c =? CR) []) as [ls Hls]. exists (reverse cur :: ls).
        intros rest. by rewrite Hls.
      * destruct (IH false (c :: cur)) as [ls Hls]. by exists ls.
Qed.

Lemma splitlines_whole (x : str) :
  no_linebreak x → x ≠ [] → splitlines x = [x].
Proof.
  intros Hx Hne. unfold splitlines. rewrite <- (app_nil_r x) at 1.
  rewrite splitlines_from_run by auto. simpl. rewrite app_nil_r.
  destruct (reverse x) as [|a r] eqn:Hr.
  - apply (f_equal reverse) in Hr. rewrite reverse_involutive in Hr. done.
  - by rewrite <- Hr, reverse_involutive.
Qed.

Lemma splitlines_first (x rest : str) :
  no_linebreak x →
  splitlines (x ++ LF :: rest) = x :: splitlines rest.
Proof.
  intros Hx. unfold splitlines.
  destruct x as [|c x'] eqn:Hxeq; [done|]. rewrite <- Hxeq in *.
  rewrite splitlines_from_run, splitlines_from_LF.
  - by rewrite app_nil_r, reverse_involutive.
  - done.
  - left. by rewrite Hxeq.
Qed.

(** A part that is not empty and free of line boundaries is one of the lines
    of the text joined with line feeds, whatever the other parts hold. *)
Lemma elem_of_splitlines_join (parts : list str) (x : str) :
  x ∈ parts → x ≠ [] → no_linebreak x → x ∈ splitlines (join [LF] parts).
Proof.
  intros Hin Hne Hx. induction parts as [|p [|q rest] IH].
  - by apply elem_of_nil in Hin.
  - apply list_elem_of_singleton in Hin as ->. simpl.
    rewrite splitlines_whole by done. apply list_elem_of_singleton. done.
  - change (join [LF] (p :: q :: rest)) with (p ++ LF :: join [LF] (q :: rest)).
    apply elem_of_cons in Hin as [->|Hin].
    + rewrite splitlines_first by done. by left.
    + destruct (splitlines_from_reset p false []) as [ls Hls].
      unfold splitlines at 1. rewrite Hls. apply elem_of_app. right.
      by apply IH.
Qed.

(** When no part holds a line boundary, every line of the joined text is one
    of the parts. *)
Lemma splitlines_join_subseteq (parts : list str) (l : str) :
  Forall no_linebreak parts → l ∈ splitlines (join [LF] parts) → l ∈ parts.
Proof.
  intros Hparts. induction parts as [|p [|q rest] IH].
  - by intros ?%elem_of_nil.
  - apply Forall_cons in Hparts as [Hp _]. simpl.
    destruct p as [|c p'] eqn:Hpeq; [by intros ?%elem_of_nil|].
    rewrite splitlines_whole by done. done.
  - apply Forall_cons in Hparts as [Hp Hrest].
    change (join [LF] (p :: q :: rest)) with (p ++ LF :: join [LF] (q :: rest)).
    rewrite splitlines_first by done.
    intros [->|Hl]%elem_of_cons; [by left|]. right. by apply IH.
Qed.

(** ** Body-text extractor *)

Section BodyTextProperties.
Variable lower : str → str.

Lemma is_valid_body_line_spec (line : str) (min_length : nat) :
  _is_valid_body_line lower line min_length = true ↔
    (0x40 ∉ line)
    ∧ (∀ kw, kw ∈ body_line_keywords → str_in kw (lower line) = false)
    ∧ (min_length ≤ length line)%nat
    ∧ (0x2E ∈ line).
Proof.
  unfold _is_valid_body_line.
  change (py "@") with [0x40]. change (py ".") with [0x2E].
  rewrite <- str_in_single_false, <- (str_in_single 0x2E).
  destruct (str_in [0x40] line); [by split; [|intros [? _]]|].
  destruct (existsb _ body_line_keywords) eqn:Hkw.
  - apply existsb_exists in Hkw as (kw & Hin%list_elem_of_In & Hkw).
    split; [done|]. intros (_ & H & _). by rewrite (H kw Hin) in Hkw.
  - assert (∀ kw, kw ∈ body_line_keywords → str_in kw (lower line) = false)
      as Hall.
    { intros kw Hin%list_elem_of_In.
      destruct (str_in kw (lower line)) eqn:E; [|done].
      rewrite <- Hkw. symmetry. apply existsb_exists. eauto. }
    destruct (Nat.ltb_spec (length line) min_length).
    + split; [done|]. intros (_ & _ & ? & _). lia.
    + destruct (str_in [0x2E] line); simpl.
      * done.
      * split; [done|]. by intros (_ & _ & _ & ?).
Qed.

Lemma body_start_scan_spec (min_line_length : nat) (lines : list str) :
  ∀ i0,
    match body_start_scan lower min_line_length i0 lines with
    | Some i =>
        ∃ k line,
          i = (i0 + k)%nat ∧ lines !! k = Some line
          ∧ qualifies lower min_line_length line = true
          ∧ ∀ j l, (j < k)%nat → lines !! j = Some l →
                   qualifies lower min_line_length l = false
    | None => ∀ l, l ∈ lines → qualifies lower min_line_length l = false
    end.
Proof.
  induction lines as [|line lines IH]; intros i0; simpl.
  - by intros l ?%elem_of_nil.
  - destruct (qualifies lower min_line_length line) eqn:Hq.
    + unfold qualifies in Hq. apply andb_true_iff in Hq as [Hlen Hv].
      apply negb_true_iff in Hlen. rewrite Hlen, Hv.
      exists 0%nat, line.
      repeat split; [lia|by unfold qualifies; rewrite Hlen, Hv|].
      intros; lia.
    + assert (body_start_scan lower min_line_length i0 (line :: lines)
              = body_start_scan lower min_line_length (S i0) lines) as Hstep.
      { simpl. unfold qualifies in Hq.
        destruct (length (strip line) <? min_line_length)%nat; [done|].
        simpl in Hq. by rewrite Hq. }
      simpl in Hstep. rewrite Hstep. specialize (IH (S i0)).
      destruct (body_start_scan lower min_line_length (S i0) lines) as [i|].
      * destruct IH as (k & l & -> & Hk & Hl & Hbefore).
        exists (S k), l. repeat split; [lia|done|done|].
        intros [|j] l' Hj; simpl; [by intros [= <-]|].
        apply Hbefore. lia.
      * intros l [->|Hl]%elem_of_cons; auto.
Qed.
Lemma elem_of_filter_lines (min_line_length : nat) (body_lines : list str)
    (out : str) :
  out ∈ filter_lines min_line_length body_lines ↔
    ∃ line, line ∈ body_lines
            ∧ (min_line_length ≤ length (strip line))%nat
            ∧ out = strip (replace A_circumflex (py " ") (strip line)).
Proof.
  induction body_lines as [|line rest IH]; simpl.
  - split; [by intros ?%elem_of_nil|]. by intros (? & ?%elem_of_nil & _).
  - destruct (Nat.leb_spec min_line_length (length (strip line))).
    + rewrite elem_of_cons, IH. split.
      * intros [->|(l & Hl & ?)]; [exists line|exists l];
          rewrite elem_of_cons; auto.
      * intros (l & [->|Hl]%elem_of_cons & Hlen & ->); [by left|].
        right. eauto.
    + rewrite IH. split.
      * intros (l & Hl & ?). exists l. rewrite elem_of_cons. auto.
      * intros (l & [->|Hl]%elem_of_cons & Hlen & ->); [lia|eauto].
Qed.

(** What cleaning does to a stripped line [t]. *)
Lemma cleaned_line_spec (t : str) :
  let out := strip (replace A_circumflex (py " ") t) in
  (0xC2 ∉ out)
  ∧ (length out ≤ length t)%nat
  ∧ (∀ c, c ∈ out → c = 0x20 ∨ c ∈ t)
  ∧ ((∀ c, head t = Some c → isspace c = false) →
     (∀ c, last t = Some c → isspace c = false) →
     head t ≠ Some 0xC2 → last t ≠ Some 0xC2 →
     out = replace A_circumflex (py " ") t ∧ length out = length t).
Proof.
  change A_circumflex with [0xC2]. change (py " ") with [0x20].
  cbv zeta. split_and!.
  - intros Hc%elem_of_strip%elem_of_replace_single.
    by destruct Hc as [[? _]|[? _]].
  - etrans; [apply length_strip|]. by rewrite length_replace_single.
  - intros c Hc%elem_of_strip%elem_of_replace_single.
    destruct Hc as [[? _]|[_ ?]]; auto.
  - intros Hh Hl Hh' Hl'.
    assert (strip (replace [0xC2] [0x20] t) = replace [0xC2] [0x20] t)
      as ->; [|by rewrite length_replace_single].
    rewrite replace_single. apply strip_fixed; intros c.
    + destruct t as [|d t']; [done|]. simpl. intros [= <-].
      destruct (N.eqb_spec d 0xC2) as [->|_]; [done|]. by apply Hh.
    + rewrite fmap_last. destruct (last t) as [d|]; [|done].
      simpl. intros [= <-].
      destruct (N.eqb_spec d 0xC2) as [->|_]; [done|]. by apply Hl.
Qed.

Lemma filtered_lines_no_linebreak (min_line_length : nat) (full_text : str) :
  Forall no_linebreak (filtered_lines lower min_line_length full_text).
Proof.
  apply Forall_forall. intros out (line & Hline & _ & ->)%elem_of_filter_lines.
  apply subseteq_drop, splitlines_no_linebreak in Hline.
  apply Forall_forall. intros c Hc.
  apply (cleaned_line_spec (strip line)) in Hc as [->|Hc%elem_of_strip];
    [done|].
  by eapply Forall_forall in Hline.
Qed.

Lemma filter_lines_all_short (min_line_length : nat) (body_lines : list str) :
  (∀ line, line ∈ body_lines → (length (strip line) < min_line_length)%nat) →
  filter_lines min_line_length body_lines = [].
Proof.
  intros Hshort. destruct (filter_lines _ _) as [|out outs] eqn:Hf; [done|].
  assert (out ∈ filter_lines min_line_length body_lines) as Hout
    by (rewrite Hf; left).
  apply elem_of_filter_lines in Hout as (line & Hin & Hlen & _).
  apply Hshort in Hin. lia.
Qed.
(** C1, as amended.  [_is_valid_body_line] accepts exactly the lines that
    hold no "@", none of the five keywords once lowered, at least
    [min_length] characters and a ".".  The body-start scan stops at the
    first line that is long enough once stripped and is accepted at
    [min_length=100]: extraction begins at the index of that line, and at
    index 0 when no line qualifies. *)
Theorem body_start_is_first_qualifying_line (min_line_length : nat)
    (lines : list str) :
  (∀ line min_length,
     _is_valid_body_line lower line min_length = true ↔
       (0x40 ∉ line)
       ∧ (∀ kw, kw ∈ body_line_keywords → str_in kw (lower line) = false)
       ∧ (min_length ≤ length line)%nat
       ∧ (0x2E ∈ line))
  ∧ let i := start_index lower min_line_length lines in
    (i = 0%nat
     ∧ ∀ l, l ∈ lines → qualifies lower min_line_length l = false)
    ∨ (∃ line,
         lines !! i = Some line
         ∧ qualifies lower min_line_length line = true
         ∧ ∀ j l, (j < i)%nat → lines !! j = Some l →
                  qualifies lower min_line_length l = false).
Proof.
  split; [apply is_valid_body_line_spec|]. cbv zeta. unfold start_index.
  pose proof (body_start_scan_spec min_line_length lines 0) as H.
  destruct (body_start_scan lower min_line_length 0 lines) as [i|]; simpl.
  - right. destruct H as (k & line & -> & ? & ? & ?). by exists line.
  - left. done.
Qed.

(** C4, as amended.  Every line of the output is made from a line of the
    page text whose stripped form has at least [min_line_length]
    characters: it is that stripped line with each U+00C2 replaced by a
    space, stripped once more.  It holds no U+00C2 and is no longer than the
    stripped line; when the stripped line neither begins nor ends with
    U+00C2 it has the same length, hence at least [min_line_length]
    characters. *)
Theorem extract_body_text_output_lines (min_line_length : nat)
    (body : option str) (out : str) :
  out ∈ filtered_lines lower min_line_length (full_text body)
  ∨ out ∈ splitlines (_extract_body_text lower body min_line_length) →
  ∃ line,
    line ∈ splitlines (full_text body)
    ∧ (min_line_length ≤ length (strip line))%nat
    ∧ out = strip (replace A_circumflex (py " ") (strip line))
    ∧ (0xC2 ∉ out)
    ∧ (length out ≤ length (strip line))%nat
    ∧ (head (strip line) ≠ Some 0xC2 → last (strip line) ≠ Some 0xC2 →
       out = replace A_circumflex (py " ") (strip line)
       ∧ (min_line_length ≤ length out)%nat).
Proof.
  intros Hout.
  assert (out ∈ filtered_lines lower min_line_length (full_text body))
    as (line & Hline & Hlen & ->)%elem_of_filter_lines.
  { destruct Hout as [?|Hout]; [done|].
    revert Hout. apply splitlines_join_subseteq.
    apply filtered_lines_no_linebreak. }
  exists line. apply subseteq_drop in Hline.
  destruct (cleaned_line_spec (strip line)) as (Hno & Hle & _ & Hsame).
  split_and!; try done.
  intros Hh Hl.
  destruct Hsame as [Heq Hlen']; [apply strip_head|apply strip_last|done..|].
  split; [done|lia].
Qed.

(** The line loops give the empty string when the document has no body,
    when the text left of the body is empty, and more generally when every
    line left is shorter than [min_line_length] once stripped. *)
Lemma extract_body_text_empty (min_line_length : nat) :
  _extract_body_text lower None min_line_length = []
  ∧ _extract_body_text lower (Some []) min_line_length = []
  ∧ ∀ text,
      (∀ line, line ∈ splitlines text →
               (length (strip line) < min_line_length)%nat) →
      _extract_body_text lower (Some text) min_line_length = [].
Proof.
  split_and!; [done..|]. intros text Hshort.
  unfold _extract_body_text, filtered_lines. rewrite filter_lines_all_short.
  - done.
  - intros line Hline%subseteq_drop. by apply Hshort.
Qed.
End BodyTextProperties.

(** C1, as stated, fails: a stripped line of 111 characters with no "@", a
    "." and none of the keywords is accepted, and the scan then starts the
    body at index 1, leaving the 52-character line at index 0 out of the
    result.  Both lines are ASCII text, on which [str.lower] is
    [ascii_lower]. *)
Lemma body_start_scan_finds_line :
  let l0 := py "Contact: someone@example.org for questions about it." in
  let l1 := py "This paragraph is the first real sentence of the body "
            ++ py "and it is comfortably longer than one hundred characters." in
  strip l1 = l1
  ∧ length l1 = 111%nat
  ∧ str_in (py "@") l1 = false
  ∧ str_in (py ".") l1 = true
  ∧ existsb (λ kw, str_in kw (ascii_lower l1)) body_line_keywords = false
  ∧ _is_valid_body_line ascii_lower l1 100 = true
  ∧ start_index ascii_lower 40 [l0; l1] = 1%nat
  ∧ length (strip l0) = 52%nat
  ∧ _extract_body_text ascii_lower (Some (l0 ++ [LF] ++ l1)) 40 = l1.
Proof. cbv zeta. split_and!; by vm_compute. Qed.

(** C4, as stated, fails: a 40-character line that begins with U+00C2 is
    kept, and comes out as a line of 39 characters. *)
Lemma extract_body_text_short_line :
  let text := [0xC2] ++ replicate 39 0x61 in
  let out := _extract_body_text ascii_lower (Some text) 40 in
  length (strip text) = 40%nat
  ∧ out = replicate 39 0x61
  ∧ splitlines out = [out]
  ∧ length out = 39%nat.
Proof. cbv zeta. split_and!; by vm_compute. Qed.

Lemma extract_body_text_output_lines_witness :
  let body :=
    Some (py "  Menu" ++ [LF]
          ++ py "  caf" ++ [0xC2]
          ++ py "e: the measurements are reported in full below. ") in
  let out := py "caf e: the measurements are reported in full below." in
  out ∈ splitlines (_extract_body_text ascii_lower body 40)
  ∧ ∃ line,
      line ∈ splitlines (full_text body)
      ∧ (40 ≤ length (strip line))%nat
      ∧ out = strip (replace A_circumflex (py " ") (strip line))
      ∧ (0xC2 ∉ out)
      ∧ (length out ≤ length (strip line))%nat
      ∧ (head (strip line) ≠ Some 0xC2 → last (strip line) ≠ Some 0xC2 →
         out = replace A_circumflex (py " ") (strip line)
         ∧ (40 ≤ length out)%nat).
Proof.
  cbv zeta. split.
  - vm_compute. constructor.
  - apply (extract_body_text_output_lines ascii_lower 40). right.
    vm_compute. constructor.
Defined.

(** ** Identifier history *)

Lemma load_old_arxiv_ids_loop_spec (fs : files) (today : date)
    (offsets : list Z) :
  ∀ arxiv_ids,
    load_old_arxiv_ids_loop fs today offsets arxiv_ids
    = Ok (arxiv_ids ++ concat ((λ i, saved_ids fs (today - i)%Z) <$> offsets)).
Proof.
  induction offsets as [|i offsets IH]; intros acc; simpl.
  - by rewrite app_nil_r.
  - unfold open_read, saved_ids.
    destruct (fs !! arxiv_ids_s3_key (today - i)) as [content|]; rewrite IH.
    + by rewrite splitlines_universal_newlines, app_assoc.
    + done.
Qed.

Lemma load_old_arxiv_ids_spec (fs : files) (today : date) :
  _load_old_arxiv_ids fs today
  = Ok (concat ((λ i, saved_ids fs (today - i)%Z) <$> history_offsets)).
Proof. apply load_old_arxiv_ids_loop_spec. Qed.

Lemma elem_of_history_offsets (i : Z) :
  i ∈ history_offsets ↔ (1 ≤ i ≤ 7)%Z.
Proof. unfold history_offsets. rewrite elem_of_seqZ. lia. Qed.

Lemma elem_of_remove_duplicates (old_arxiv_ids new_arxiv_ids : list str)
    (x : str) :
  x ∈ _remove_duplicates old_arxiv_ids new_arxiv_ids
  ↔ x ∈ new_arxiv_ids ∧ x ∉ old_arxiv_ids.
Proof.
  unfold _remove_duplicates.
  by rewrite elem_of_elements, elem_of_difference, !elem_of_list_to_set.
Qed.

Lemma elem_of_concat (x : str) (ls : list (list str)) :
  x ∈ concat ls ↔ ∃ l, l ∈ ls ∧ x ∈ l.
Proof.
  rewrite list_elem_of_In, in_concat. split.
  - intros (l & ?%list_elem_of_In & ?%list_elem_of_In). eauto.
  - intros (l & ?%list_elem_of_In & ?%list_elem_of_In). eauto.
Qed.

(** C2.  [_remove_duplicates] returns the set difference of the candidates
    and the history: an identifier is in the result exactly when it is a
    candidate and not in the history; the result lists no identifier twice
    and is included in the candidates. *)
Theorem remove_duplicates_is_set_difference
    (old_arxiv_ids new_arxiv_ids : list str) :
  (∀ x, x ∈ _remove_duplicates old_arxiv_ids new_arxiv_ids
        ↔ x ∈ new_arxiv_ids ∧ x ∉ old_arxiv_ids)
  ∧ NoDup (_remove_duplicates old_arxiv_ids new_arxiv_ids)
  ∧ _remove_duplicates old_arxiv_ids new_arxiv_ids ⊆ new_arxiv_ids.
Proof.
  split_and!.
  - apply elem_of_remove_duplicates.
  - apply NoDup_elements.
  - intros x Hx. by apply elem_of_remove_duplicates in Hx as [? _].
Qed.

(** C3, as amended.  Once a list of identifiers is saved for day [D], loading
    the history on any of the seven following days returns a list that holds
    every saved identifier that is not empty and has no line boundary in it;
    such an identifier is then removed from any batch of candidates. *)
Theorem saved_ids_surface_in_window (fs : files) (D today : date)
    (new_arxiv_ids : list str) (x : str) :
  (D < today ≤ D + 7)%Z →
  x ∈ new_arxiv_ids → x ≠ [] → no_linebreak x →
  ∃ old_arxiv_ids,
    _load_old_arxiv_ids (_save_arxiv_ids fs D new_arxiv_ids) today
    = Ok old_arxiv_ids
    ∧ x ∈ old_arxiv_ids
    ∧ ∀ candidates, x ∉ _remove_duplicates old_arxiv_ids candidates.
Proof.
  intros Hwin Hin Hne Hx. eexists. split; [apply load_old_arxiv_ids_spec|].
  assert (x ∈ concat ((λ i, saved_ids (_save_arxiv_ids fs D new_arxiv_ids)
                              (today - i)%Z) <$> history_offsets)) as Hold.
  { apply elem_of_concat. eexists. split.
    - apply list_elem_of_fmap. exists (today - D)%Z. split; [done|].
      apply elem_of_history_offsets. lia.
    - unfold saved_ids, _save_arxiv_ids, open_write.
      replace (today - (today - D))%Z with D by lia.
      rewrite lookup_insert_eq. by apply elem_of_splitlines_join. }
  split; [done|]. intros candidates Hc.
  by apply elem_of_remove_duplicates in Hc as [_ ?].
Qed.

(** C3, as stated, fails: an identifier that ends with a line feed (the
    pattern [^/papers/\d{4}\.\d{5}$] lets one through, [$] matching before a
    final newline) is saved, and the next day's history holds it without the
    line feed, so the saved identifier is not in it. *)
Lemma saved_id_with_line_feed_is_lost :
  let arxiv_id := py "2401.01234" ++ [LF] in
  _load_old_arxiv_ids (_save_arxiv_ids ∅ 738886 [arxiv_id]) 738887
  = Ok [py "2401.01234"]
  ∧ arxiv_id ∉ [py "2401.01234"].
Proof.
  cbv zeta. split; [by vm_compute|].
  intros H%list_elem_of_singleton. by vm_compute in H.
Qed.

Lemma saved_ids_surface_in_window_witness :
  let new_arxiv_ids := [py "2401.01234"; py "2401.05678"] in
  let x := py "2401.05678" in
  (738886 < 738889 ≤ 738886 + 7)%Z
  ∧ x ∈ new_arxiv_ids ∧ x ≠ [] ∧ no_linebreak x
  ∧ ∃ old_arxiv_ids,
      _load_old_arxiv_ids (_save_arxiv_ids ∅ 738886 new_arxiv_ids) 738889
      = Ok old_arxiv_ids
      ∧ x ∈ old_arxiv_ids
      ∧ ∀ candidates, x ∉ _remove_duplicates old_arxiv_ids candidates.
Proof.
  cbv zeta.
  assert (py "2401.05678" ∈ [py "2401.01234"; py "2401.05678"]) as Hin
    by (right; left).
  assert (py "2401.05678" ≠ []) as Hne by done.
  assert (no_linebreak (py "2401.05678")) as Hx
    by (vm_compute; repeat constructor).
  split_and!; [lia|lia|done..|].
  apply (saved_ids_surface_in_window ∅ 738886 738889 _ _); [lia|done..].
Defined.

(** C6.  [_load_old_arxiv_ids] returns, without raising, the identifiers on
    file for the seven days before today, in that order; a day without a
    file contributes nothing.  When none of the seven days has a file the
    result is empty, and the files of other days are not read. *)
Theorem load_old_arxiv_ids_skips_missing_days (fs : files) (today : date) :
  _load_old_arxiv_ids fs today
  = Ok (saved_ids fs (today - 1) ++ saved_ids fs (today - 2)
        ++ saved_ids fs (today - 3) ++ saved_ids fs (today - 4)
        ++ saved_ids fs (today - 5) ++ saved_ids fs (today - 6)
        ++ saved_ids fs (today - 7))%Z
  ∧ (∀ d, fs !! arxiv_ids_s3_key d = None → saved_ids fs d = [])
  ∧ ((∀ i, (1 ≤ i ≤ 7)%Z → fs !! arxiv_ids_s3_key (today - i) = None) →
     _load_old_arxiv_ids fs today = Ok [])
  ∧ (∀ fs', (∀ i, (1 ≤ i ≤ 7)%Z →
                  fs' !! arxiv_ids_s3_key (today - i)
                  = fs !! arxiv_ids_s3_key (today - i)) →
            _load_old_arxiv_ids fs' today = _load_old_arxiv_ids fs today).
Proof.
  split_and!.
  - rewrite load_old_arxiv_ids_spec. simpl. by rewrite app_nil_r.
  - intros d Hd. unfold saved_ids. by rewrite Hd.
  - intros Hnone. rewrite load_old_arxiv_ids_spec. f_equal.
    unfold saved_ids. simpl. by rewrite !Hnone by lia.
  - intros fs' Hsame. rewrite !load_old_arxiv_ids_spec. f_equal.
    unfold saved_ids. simpl. by rewrite !Hsame by lia.
Qed.

Lemma load_old_arxiv_ids_skips_missing_days_witness :
  let fs : files :=
    {[ arxiv_ids_s3_key 738870 := py "2312.00001";
       paper_summary_index_s3_key 738885 := py "# digest" ]} in
  (∀ i, (1 ≤ i ≤ 7)%Z → fs !! arxiv_ids_s3_key (738886 - i) = None)
  ∧ _load_old_arxiv_ids fs 738886 = Ok [].
Proof.
  cbv zeta.
  assert (∀ i, (1 ≤ i ≤ 7)%Z →
    ({[ arxiv_ids_s3_key 738870 := py "2312.00001";
        paper_summary_index_s3_key 738885 := py "# digest" ]} : files)
      !! arxiv_ids_s3_key (738886 - i) = None) as Hnone.
  { intros i Hi. rewrite lookup_insert_ne by (intros [= ?]; lia).
    by apply lookup_singleton_ne. }
  split; [exact Hnone|].
  by apply (load_old_arxiv_ids_skips_missing_days _ 738886).
Defined.

(** ** Digest writers *)

(** C8.  Each digest writer leaves, as the whole content of the day's digest
    file, the summaries joined by its separator, whatever the file held
    before, and touches no other file.  Joining "A" and "B" with "---" gives
    "A---B", which is what reading the file back returns. *)
Theorem store_summaries_writes_joined_parts (fs : files) (today : date)
    (summaries : list str) :
  PaperSummarizer._store_summaries fs today summaries
    !! paper_summary_index_s3_key today
  = Some (join paper_separator summaries)
  ∧ RedditExplorer._store_summaries fs today summaries
      !! reddit_summary_index_s3_key today
    = Some (join reddit_separator summaries)
  ∧ (∀ k, k ≠ paper_summary_index_s3_key today →
          PaperSummarizer._store_summaries fs today summaries !! k = fs !! k)
  ∧ (∀ k, k ≠ reddit_summary_index_s3_key today →
          RedditExplorer._store_summaries fs today summaries !! k = fs !! k)
  ∧ join (py "---") [py "A"; py "B"] = py "A---B"
  ∧ open_read
      (open_write fs (paper_summary_index_s3_key today)
         (join (py "---") [py "A"; py "B"]))
      (paper_summary_index_s3_key today)
    = Ok (py "A---B")
  ∧ PaperSummarizer._store_summaries fs today [py "A"; py "B"]
      !! paper_summary_index_s3_key today
    = Some (py "A" ++ paper_separator ++ py "B")
  ∧ RedditExplorer._store_summaries fs today [py "A"; py "B"]
      !! reddit_summary_index_s3_key today
    = Some (py "A" ++ reddit_separator ++ py "B").
Proof.
  unfold PaperSummarizer._store_summaries, RedditExplorer._store_summaries,
    open_read, open_write.
  split_and!.
  - apply lookup_insert_eq.
  - apply lookup_insert_eq.
  - intros k Hk. by rewrite lookup_insert_ne.
  - intros k Hk. by rewrite lookup_insert_ne.
  - done.
  - by rewrite lookup_insert_eq.
  - apply lookup_insert_eq.
  - apply lookup_insert_eq.
Qed.

Lemma store_summaries_writes_joined_parts_witness :
  let fs : files := {[ paper_summary_index_s3_key 738886 := py "stale" ]} in
  PaperSummarizer._store_summaries fs 738886 [py "A"; py "B"]
    !! paper_summary_index_s3_key 738886
  = Some (py "A" ++ paper_separator ++ py "B")
  ∧ (arxiv_ids_s3_key 738886 ≠ paper_summary_index_s3_key 738886 →
     PaperSummarizer._store_summaries fs 738886 [py "A"; py "B"]
       !! arxiv_ids_s3_key 738886 = fs !! arxiv_ids_s3_key 738886).
Proof.
  cbv zeta.
  pose proof (store_summaries_writes_joined_parts
    {[ paper_summary_index_s3_key 738886 := py "stale" ]} 738886
    [py "A"; py "B"]) as (_ & _ & Hother & _ & _ & _ & Hpaper & _).
  split; [exact Hpaper|]. intros Hne. by apply Hother.
Defined.

(** ** Hot posts *)

Section HotPostsProperties.
Variable lower : str → str.

(** What the filter guarantees of a post that is kept. *)
Lemma undesired_false (author : str) (post : Submission.t) (ty : post_type) :
  undesired lower author post ty = false →
  author ≠ py "AutoModerator"
  ∧ str_in (py "megathread") (lower (Submission.title post)) = false
  ∧ (float_0_7 <= Submission.upvote_ratio post)%Q
  ∧ ty ∉ [Gallery; Poll; Crosspost].
Proof.
  unfold undesired. rewrite !orb_false_iff.
  intros [[[Ha Ht] Hr] Hty]. split_and!.
  - by apply bool_decide_eq_false in Ha.
  - done.
  - apply Qle_bool_iff. unfold Qlt_bool in Hr. by apply negb_false_iff in Hr.
  - by apply bool_decide_eq_false in Hty.
Qed.

Lemma hot_posts_loop_spec (listing : list Submission.t) :
  ∀ posts out,
    hot_posts_loop lower listing posts = Ok out →
    ∃ kept,
      out = posts ++ kept
      ∧ (length kept ≤ length listing)%nat
      ∧ Forall (kept_from lower listing) kept.
Proof.
  induction listing as [|post rest IH]; intros posts out; simpl.
  - intros [= <-]. exists []. by rewrite app_nil_r.
  - destruct (if bool_decide (__judge_post_type post = Video)
              then _get_video_url post
              else Ok (Some (Submission.url post))) as [url|]; [|done].
    simpl. destruct (Submission.author post) as [author|] eqn:Hauthor;
      [|done].
    simpl. destruct (undesired lower author post _) eqn:Hund.
    + intros (kept & -> & Hlen & Hkept)%IH. exists kept.
      split_and!; [done|lia|].
      eapply Forall_impl; [exact Hkept|].
      intros p (s & a & Hs & ?). exists s, a. split; [by right|done].
    + intros (kept & -> & Hlen & Hkept)%IH.
      exists (make_post post (__judge_post_type post) url :: kept).
      split_and!; [by rewrite <- app_assoc|simpl; lia|].
      constructor.
      * exists post, author. split_and!; try done. by left.
      * eapply Forall_impl; [exact Hkept|].
        intros p (s & a & Hs & ?). exists s, a. split; [by right|done].
Qed.

(** C10.  Every post that [_retrieve_hot_posts] returns was made from one of
    the first [limit] submissions of the hot listing (10 when no limit is
    given), so there are at most [limit] of them; the submission's author is
    not "AutoModerator", its lowered title does not contain "megathread",
    its upvote ratio is not below the float 0.7, and its type is none of
    gallery, poll and crosspost. *)
Theorem retrieve_hot_posts_filters (hot : list Submission.t)
    (limit : option nat) (posts : list RedditPost.t) :
  _retrieve_hot_posts lower hot limit = Ok posts →
  let n := default reddit_top_posts_limit limit in
  (length posts ≤ n)%nat
  ∧ (limit = None → n = 10%nat)
  ∧ Forall (λ p,
      ∃ post author,
        post ∈ take n hot
        ∧ Submission.author post = Some author
        ∧ RedditPost.id p = Submission.id post
        ∧ RedditPost.title p = Submission.title post
        ∧ RedditPost.type p = __judge_post_type post
        ∧ author ≠ py "AutoModerator"
        ∧ str_in (py "megathread") (lower (RedditPost.title p)) = false
        ∧ (float_0_7 <= Submission.upvote_ratio post)%Q
        ∧ RedditPost.type p ∉ [Gallery; Poll; Crosspost]) posts.
Proof.
  unfold _retrieve_hot_posts. cbv zeta.
  intros (kept & -> & Hlen & Hkept)%hot_posts_loop_spec. simpl.
  split_and!.
  - etrans; [exact Hlen|]. rewrite length_take. lia.
  - by intros ->.
  - eapply Forall_impl; [exact Hkept|].
    intros p (post & author & Hin & Ha & Hid & Htitle & Hty & Hund).
    apply undesired_false in Hund as (? & ? & ? & ?).
    exists post, author. rewrite Htitle, Hty. done.
Qed.
End HotPostsProperties.

Lemma retrieve_hot_posts_filters_witness :
  let submission author title ratio self_post gallery :=
    {| Submission.post_hint := None;
       Submission.is_gallery := gallery;
       Submission.is_video := Some false;
       Submission.has_poll_data := false;
       Submission.has_crosspost_parent := false;
       Submission.is_self := self_post;
       Submission.media := Some None;
       Submission.secure_media := Some None;
       Submission.author := Some (py author);
       Submission.id := py "1abcde";
       Submission.title := py title;
       Submission.url := py "https://example.org/";
       Submission.ups := 120;
       Submission.upvote_ratio := ratio;
       Submission.selftext := [];
       Submission.thumbnail := py "self";
       Submission.permalink := py "/r/rocq/comments/1abcde/" |} in
  let hot :=
    [ submission "AutoModerator" "Weekly Megathread" (95 # 100) true None;
      submission "alice" "A verified parser" (93 # 100) true None;
      submission "bob" "Hot take" (55 # 100) false None;
      submission "carol" "Holiday pictures" (99 # 100) false (Some true);
      submission "dave" "A link worth reading" float_0_7 false None ] in
  let posts := default [] (match _retrieve_hot_posts ascii_lower hot None with
                           | Ok posts => Some posts
                           | Raise _ => None
                           end) in
  _retrieve_hot_posts ascii_lower hot None = Ok posts
  ∧ RedditPost.title <$> posts
    = [py "A verified parser"; py "A link worth reading"]
  ∧ RedditPost.type <$> posts = [Text; Link]
  ∧ (length posts ≤ 10)%nat.
Proof.
  cbv zeta.
  lazymatch goal with
  | |- ?ok ∧ _ => assert ok as Hok by (vm_compute; reflexivity)
  end.
  split_and!; [exact Hok|by vm_compute..|].
  exact (proj1 (retrieve_hot_posts_filters ascii_lower _ None _ Hok)).
Defined.

(** ** Entry points *)

(** C9 fails on the code.  [paper_summarizer.py] never imports [pprint], so
    its handler raises [NameError] on its first statement, before the [try],
    for every event and every outcome of the pipeline.  [reddit_explorer.py]
    never imports [traceback], so when the pipeline raises, the handler's
    [except] clause raises [NameError] instead of returning status 500.  The
    Reddit handler does return status 200 when nothing is raised. *)
Theorem lambda_handlers_raise_NameError :
  (∀ ev pipeline,
     paper_summarizer.lambda_handler ev pipeline = Raise (NameError "pprint"))
  ∧ (∀ what,
       reddit_explorer.lambda_handler {[ "source"%string := py "aws.events" ]}
         (Raise (OtherException what))
       = Raise (NameError "traceback"))
  ∧ (∀ ev, reddit_explorer.lambda_handler ev (Ok ()) = Ok {| statusCode := 200 |}).
Proof.
  split_and!.
  - done.
  - done.
  - intros ev. unfold reddit_explorer.lambda_handler. by destruct (scheduled ev).
Qed.

(** ** Fan-out *)

Section FanOutProperties.
Context {A B : Type}.
Variable worker_fn : A → B.
Variable max_workers : nat.
Variable items : list A.

Local Abbreviation step := (step worker_fn max_workers items).
Local Abbreviation pool_inv := (pool_inv worker_fn items).
Local Abbreviation work_left := (work_left items).
Local Abbreviation initial := (submitted (B:=B) items).

Lemma sum_weight_insert (fs : list (future (B:=B))) (i : nat)
    (old new : future) :
  fs !! i = Some old →
  (sum_list (future_weight <$> <[i := new]> fs) + future_weight old
   = sum_list (future_weight <$> fs) + future_weight new)%nat.
Proof.
  revert i. induction fs as [|f fs IH]; intros [|i]; simpl; try done.
  - intros [= ->]. lia.
  - intros Hi. specialize (IH i Hi). unfold fmap in IH. lia.
Qed.

Lemma exists_running (fs : list (future (B:=B))) :
  (0 < running fs)%nat → ∃ i, fs !! i = Some Running.
Proof.
  unfold running. induction fs as [|f fs IH]; simpl; [lia|].
  destruct f; simpl; try (intros [i Hi]%IH; by exists (S i)).
  intros _. by exists 0%nat.
Qed.

Lemma first_pending (fs : list (future (B:=B))) :
  ∀ i, fs !! i = Some Pending →
       ∃ i0, fs !! i0 = Some Pending
             ∧ ∀ j, (j < i0)%nat → fs !! j ≠ Some Pending.
Proof.
  induction fs as [|f fs IH]; intros i Hi; [done|].
  assert (f = Pending ∨ f ≠ Pending) as [->|Hf] by (destruct f; auto).
  - exists 0%nat. split; [done|]. intros; lia.
  - destruct i as [|i]; simpl in Hi; [by injection Hi|].
    destruct (IH i Hi) as (i0 & Hi0 & Hmin). exists (S i0).
    split; [done|]. intros [|j] Hj; simpl; [by intros [= ?]|].
    apply Hmin. lia.
Qed.

Lemma pool_inv_submitted : pool_inv initial.
Proof.
  unfold pool_inv, submitted; simpl.
  split_and!; [by rewrite length_replicate| |done|lia].
  intros i r [? _]%lookup_replicate. done.
Qed.

Lemma work_left_submitted : work_left initial = (3 * length items)%nat.
Proof.
  assert (∀ n, sum_list (future_weight <$> replicate n (Pending (B:=B)))
               = (2 * n)%nat) as Hsum.
  { induction n as [|n IH]; [done|].
    rewrite replicate_S, fmap_cons. simpl. rewrite IH. lia. }
  unfold work_left, submitted. cbn [futures collected]. rewrite Hsum.
  simpl. lia.
Qed.

Lemma step_pool_inv (p p' : pool) :
  pool_inv p → step p p' →
  pool_inv p' ∧ work_left p = S (work_left p').
Proof.
  intros (Hlen & Hfin & Hout & Hle) Hstep.
  destruct Hstep as [fs out i Hi _ _|fs out i x Hi Hx|fs out r Hr];
    unfold pool_inv, work_left; simpl in *.
  - split.
    + split_and!; [by rewrite length_insert| |done..].
      intros j r [(_ & ? & _)|[_ ?]]%list_lookup_insert_Some; [done|eauto].
    + pose proof (sum_weight_insert fs i Pending Running Hi). simpl in *. lia.
  - split.
    + split_and!; [by rewrite length_insert| |done..].
      intros j r [(<- & [= <-] & _)|[_ ?]]%list_lookup_insert_Some; eauto.
    + pose proof (sum_weight_insert fs i Running (Finished (worker_fn x)) Hi).
      simpl in *. lia.
  - pose proof (lookup_lt_Some _ _ _ Hr) as Hlt.
    destruct (Hfin _ _ Hr) as (x & Hx & ->). split.
    + split_and!; [done..| |rewrite length_app; simpl; lia].
      rewrite length_app. simpl. rewrite Nat.add_1_r.
      rewrite (take_S_r _ _ _ Hx), fmap_app. simpl. by rewrite <- Hout.
    + rewrite length_app. simpl. lia.
Qed.

Lemma nsteps_pool_inv_from (k : nat) (p0 p : pool) :
  pool_inv p0 → nsteps step k p0 p →
  pool_inv p ∧ (k + work_left p = work_left p0)%nat.
Proof.
  intros Hinit Hrun.
  induction Hrun as [q|n q q1 q2 Hstep _ IH]; [done|].
  destruct (step_pool_inv q q1 Hinit Hstep) as [Hinv Hwork].
  destruct (IH Hinv) as [Hinv2 Hk]. split; [done|]. lia.
Qed.

Lemma nsteps_pool_inv (k : nat) (p : pool) :
  nsteps step k initial p →
  pool_inv p ∧ (k + work_left p = 3 * length items)%nat.
Proof.
  intros Hrun. rewrite <- work_left_submitted.
  by apply nsteps_pool_inv_from; [apply pool_inv_submitted|].
Qed.

Lemma pool_progress (p : pool) :
  (0 < max_workers)%nat → pool_inv p → ¬ returned items p →
  ∃ p', step p p'.
Proof.
  intros Hworkers (Hlen & _ & _ & Hle) Hnot. destruct p as [fs out].
  unfold returned in Hnot. simpl in *.
  assert (length out < length fs)%nat as Hlt by lia.
  destruct (lookup_lt_is_Some_2 _ _ Hlt) as [[| |r] Hnext].
  - destruct (decide (running fs < max_workers)%nat) as [Hfree|Hbusy].
    + destruct (first_pending fs _ Hnext) as (i0 & Hi0 & Hmin).
      eexists. by apply (step_start _ _ _ fs out i0).
    + destruct (exists_running fs) as [i Hi]; [lia|].
      destruct (lookup_lt_is_Some_2 items i) as [x Hx].
      { rewrite <- Hlen. by eapply lookup_lt_Some. }
      eexists. by apply (step_finish _ _ _ fs out i x).
  - destruct (lookup_lt_is_Some_2 items (length out)) as [x Hx]; [lia|].
    eexists. by apply (step_finish _ _ _ fs out (length out) x).
  - eexists. by apply (step_collect _ _ _ fs out r).
Qed.

(** C5.  However the pool schedules the workers, the results read so far
    are the worker's results for the first items, in order; when the call
    returns, its list is the worker mapped over the items, of the same
    length.  With at least one worker a run that has not returned can
    always take a further step, and a run takes [3 * length items] steps in
    all, so the call does return. *)
Theorem fan_out_preserves_order (k : nat) (p : pool) :
  (0 < max_workers)%nat →
  nsteps step k initial p →
  collected p = worker_fn <$> take (length (collected p)) items
  ∧ (returned items p →
     collected p = worker_fn <$> items
     ∧ length (collected p) = length items)
  ∧ (¬ returned items p → ∃ p', step p p')
  ∧ (k + work_left p = 3 * length items)%nat.
Proof.
  intros Hworkers [Hinv Hk]%nsteps_pool_inv.
  pose proof Hinv as (_ & _ & Hout & _).
  split_and!; [done| |by apply pool_progress|done].
  intros Hret. split; [|done]. unfold returned in Hret.
  by rewrite Hout, Hret, firstn_all.
Qed.
End FanOutProperties.

Lemma fan_out_preserves_order_witness :
  let worker_fn := λ x : nat, (10 * x)%nat in
  let items := [1; 2; 3]%nat in
  let p := Pool [Finished 10; Finished 20; Finished 30]%nat [10; 20; 30]%nat in
  (0 < 2)%nat
  ∧ nsteps (step worker_fn 2 items) 9 (submitted items) p
  ∧ collected p = worker_fn <$> items
  ∧ length (collected p) = length items.
Proof.
  cbv zeta.
  assert (nsteps (step (λ x : nat, (10 * x)%nat) 2 [1; 2; 3]%nat) 9
            (submitted [1; 2; 3]%nat)
            (Pool [Finished 10; Finished 20; Finished 30]%nat
                  [10; 20; 30]%nat)) as Hrun.
  { (* the second item finishes first, the first one last *)
    eapply nsteps_l.
    { apply (step_start _ _ _ _ _ 0);
        [done|intros; lia|unfold running; simpl; lia]. }
    eapply nsteps_l.
    { apply (step_start _ _ _ _ _ 1);
        [done|intros [|j] Hj; [done|lia]|unfold running; simpl; lia]. }
    eapply nsteps_l.
    { by apply (step_finish _ _ _ _ _ 1 2%nat). }
    eapply nsteps_l.
    { apply (step_start _ _ _ _ _ 2);
        [done|intros [|[|j]] Hj; [done|done|lia]|unfold running; simpl; lia]. }
    eapply nsteps_l.
    { by apply (step_finish _ _ _ _ _ 2 3%nat). }
    eapply nsteps_l.
    { by apply (step_finish _ _ _ _ _ 0 1%nat). }
    eapply nsteps_l.
    { by apply (step_collect _ _ _ _ [] 10%nat). }
    eapply nsteps_l.
    { by apply (step_collect _ _ _ _ [10%nat] 20%nat). }
    eapply nsteps_l.
    { by apply (step_collect _ _ _ _ [10; 20]%nat 30%nat). }
    apply nsteps_O. }
  split_and!; [lia|exact Hrun|..];
    apply (fan_out_preserves_order _ 2 _ 9 _ (Nat.lt_0_succ 1) Hrun);
    reflexivity.
Defined.

(** * Further properties *)

(** ** Body-text extractor *)

Lemma strip_idempotent (s : str) : strip (strip s) = strip s.
Proof. apply strip_fixed; [apply strip_head|apply strip_last]. Qed.

Lemma strip_decompose_space (s : str) :
  ∃ ws1 ws2,
    s = ws1 ++ strip s ++ ws2
    ∧ Forall (λ c, isspace c = true) ws1
    ∧ Forall (λ c, isspace c = true) ws2.
Proof.
  destruct (lstrip_suffix s) as (ws1 & Hs & H1).
  destruct (rstrip_prefix (lstrip s)) as (ws2 & Hl & H2).
  exists ws1, ws2. unfold strip. by rewrite <- Hl.
Qed.

(** A character that is not white space survives [strip]. *)
Lemma elem_of_strip_2 (c : N) (s : str) :
  c ∈ s → isspace c = false → c ∈ strip s.
Proof.
  destruct (strip_decompose_space s) as (ws1 & ws2 & Hs & H1 & H2).
  intros Hc Hsp. rewrite Hs, !elem_of_app in Hc.
  destruct Hc as [Hc|[Hc|Hc]]; [|done|].
  - eapply Forall_forall in H1; [|done]. congruence.
  - eapply Forall_forall in H2; [|done]. congruence.
Qed.

Section BodyTextFurther.
Variable lower : str → str.

Lemma start_index_first_qualifying (min_line_length : nat)
    (lines : list str) (i : nat) (line : str) :
  lines !! i = Some line →
  qualifies lower min_line_length line = true →
  (∀ j l, (j < i)%nat → lines !! j = Some l →
          qualifies lower min_line_length l = false) →
  start_index lower min_line_length lines = i.
Proof.
  intros Hi Hq Hbefore. unfold start_index.
  pose proof (body_start_scan_spec lower min_line_length lines 0) as H.
  destruct (body_start_scan lower min_line_length 0 lines) as [i'|]; simpl.
  - destruct H as (k & l & -> & Hk & Hl & Hmin). simpl.
    destruct (Nat.lt_trichotomy k i) as [Hlt|[->|Hgt]]; [|done|].
    + rewrite (Hbefore k l Hlt Hk) in Hl. done.
    + rewrite (Hmin i line Hgt Hi) in Hq. done.
  - rewrite (H line) in Hq; [done|]. by eapply list_elem_of_lookup_2.
Qed.

Lemma short_line_not_valid (line : str) :
  (length line < 100)%nat → _is_valid_body_line lower line 100 = false.
Proof.
  intros Hlen. destruct (_is_valid_body_line lower line 100) eqn:Hv; [|done].
  apply is_valid_body_line_spec in Hv as (_ & _ & ? & _). lia.
Qed.

Lemma body_start_scan_threshold (min_line_length : nat) (lines : list str) :
  (min_line_length ≤ 100)%nat →
  ∀ i, body_start_scan lower min_line_length i lines
       = body_start_scan lower 0 i lines.
Proof.
  intros Hm. induction lines as [|line lines IH]; intros i; simpl; [done|].
  destruct (Nat.ltb_spec (length (strip line)) min_line_length) as [Hlt|_].
  - rewrite short_line_not_valid by lia. apply IH.
  - by rewrite IH.
Qed.

(** X1.  Every line of the extractor's output is trimmed (stripping it again
    changes nothing) and holds no line boundary. *)
Theorem extract_body_text_lines_are_trimmed (min_line_length : nat)
    (body : option str) (out : str) :
  out ∈ filtered_lines lower min_line_length (full_text body)
  ∨ out ∈ splitlines (_extract_body_text lower body min_line_length) →
  strip out = out ∧ no_linebreak out.
Proof.
  intros Hout.
  assert (out ∈ filtered_lines lower min_line_length (full_text body)) as Hin.
  { destruct Hout as [?|Hout]; [done|].
    revert Hout. apply splitlines_join_subseteq.
    apply filtered_lines_no_linebreak. }
  split.
  - apply elem_of_filter_lines in Hin as (line & _ & _ & ->).
    apply strip_idempotent.
  - pose proof (filtered_lines_no_linebreak lower min_line_length
                  (full_text body)) as Hall.
    by eapply Forall_forall in Hall.
Qed.

(** X2.  When some line of the page qualifies as the body start, the output
    begins with that line, cleaned: every earlier line is left out, however
    long, and the result is not empty. *)
Theorem extract_body_text_begins_at_start_line (min_line_length : nat)
    (body : option str) (i : nat) (line : str) :
  splitlines (full_text body) !! i = Some line →
  qualifies lower min_line_length line = true →
  (∀ j l, (j < i)%nat → splitlines (full_text body) !! j = Some l →
          qualifies lower min_line_length l = false) →
  filtered_lines lower min_line_length (full_text body)
  = strip (replace A_circumflex (py " ") (strip line))
    :: filter_lines min_line_length (drop (S i) (splitlines (full_text body)))
  ∧ _extract_body_text lower body min_line_length ≠ [].
Proof.
  intros Hi Hq Hbefore.
  assert (filtered_lines lower min_line_length (full_text body)
          = strip (replace A_circumflex (py " ") (strip line))
            :: filter_lines min_line_length
                 (drop (S i) (splitlines (full_text body)))) as Hlines.
  { unfold filtered_lines.
    rewrite (start_index_first_qualifying _ _ i line Hi Hq Hbefore).
    rewrite (drop_S _ _ _ Hi). simpl.
    apply andb_true_iff in Hq as [Hlen _]. apply negb_true_iff in Hlen.
    apply Nat.ltb_ge in Hlen. apply Nat.leb_le in Hlen. by rewrite Hlen. }
  split; [done|]. unfold _extract_body_text. rewrite Hlines.
  apply andb_true_iff in Hq as [_ Hv].
  apply is_valid_body_line_spec in Hv as (_ & _ & _ & Hdot).
  assert (0x2E ∈ strip (replace A_circumflex (py " ") (strip line))) as Hin.
  { apply elem_of_strip_2; [|done].
    change A_circumflex with [0xC2]. change (py " ") with [0x20].
    rewrite replace_single. apply list_elem_of_fmap. by exists 0x2E. }
  destruct (strip (replace A_circumflex (py " ") (strip line))) as [|c out];
    [by apply elem_of_nil in Hin|].
  simpl. by destruct (filter_lines _ _).
Qed.

(** X3.  Where the body starts does not depend on [min_line_length] as long
    as it is at most 100: a line accepted at [min_length=100] is never below
    the threshold. *)
Theorem start_index_ignores_min_line_length (min_line_length : nat)
    (lines : list str) :
  (min_line_length ≤ 100)%nat →
  start_index lower min_line_length lines = start_index lower 0 lines.
Proof.
  intros Hm. unfold start_index. by rewrite body_start_scan_threshold.
Qed.
End BodyTextFurther.

Lemma extract_body_text_lines_are_trimmed_witness :
  let body :=
    Some (py "   The first section reports the measurements in full.  "
          ++ [LF] ++ py "  Menu") in
  let out := py "The first section reports the measurements in full." in
  out ∈ splitlines (_extract_body_text ascii_lower body 40)
  ∧ strip out = out ∧ no_linebreak out.
Proof.
  cbv zeta.
  lazymatch goal with
  | |- ?hyp ∧ _ => assert hyp as Hout by (vm_compute; constructor)
  end.
  split; [exact Hout|].
  apply (extract_body_text_lines_are_trimmed ascii_lower 40 _ _ (or_intror Hout)).
Defined.

Lemma extract_body_text_begins_at_start_line_witness :
  let l0 := py "Contact: someone@example.org for questions about it." in
  let l1 := py "This paragraph is the first real sentence of the body "
            ++ py "and it is comfortably longer than one hundred characters." in
  let body := Some (l0 ++ [LF] ++ l1) in
  splitlines (full_text body) !! 1%nat = Some l1
  ∧ qualifies ascii_lower 40 l1 = true
  ∧ _extract_body_text ascii_lower body 40 ≠ [].
Proof.
  cbv zeta.
  lazymatch goal with
  | |- ?h1 ∧ ?h2 ∧ _ =>
      assert h1 as H1 by (vm_compute; reflexivity);
      assert h2 as H2 by (vm_compute; reflexivity)
  end.
  split_and!; [exact H1|exact H2|].
  apply (extract_body_text_begins_at_start_line ascii_lower 40 _ 1 _ H1 H2).
  intros [|j] l Hj; [|lia]. vm_compute. by intros [= <-].
Defined.

Lemma start_index_ignores_min_line_length_witness :
  (40 ≤ 100)%nat
  ∧ start_index ascii_lower 40 [py "Menu"; py "About"]
    = start_index ascii_lower 0 [py "Menu"; py "About"].
Proof.
  assert (40 ≤ 100)%nat as H by lia.
  split; [exact H|]. exact (start_index_ignores_min_line_length _ 40 _ H).
Defined.

(** ** Identifier history *)

(** An identifier the history file can carry on a line of its own. *)
Lemma splitlines_join_round_trip (parts : list str) :
  Forall (λ x, x ≠ [] ∧ no_linebreak x) parts →
  splitlines (join [LF] parts) = parts.
Proof.
  induction parts as [|p [|q rest] IH]; intros Hparts.
  - done.
  - apply Forall_cons in Hparts as [[Hne Hp] _]. simpl.
    by apply splitlines_whole.
  - apply Forall_cons in Hparts as [[Hne Hp] Hrest].
    change (join [LF] (p :: q :: rest)) with (p ++ LF :: join [LF] (q :: rest)).
    rewrite splitlines_first by done. f_equal. by apply IH.
Qed.

Lemma saved_ids_save_eq (fs : files) (D : date) (ids : list str) :
  saved_ids (_save_arxiv_ids fs D ids) D = splitlines (join [LF] ids).
Proof.
  unfold saved_ids, _save_arxiv_ids, open_write. by rewrite lookup_insert_eq.
Qed.

Lemma saved_ids_save_ne (fs : files) (D d : date) (ids : list str) :
  d ≠ D → saved_ids (_save_arxiv_ids fs D ids) d = saved_ids fs d.
Proof.
  intros Hd. unfold saved_ids, _save_arxiv_ids, open_write.
  rewrite lookup_insert_ne; [done|]. by intros [= ?].
Qed.

(** X4.  Saving and loading is an exact round trip for identifiers that are
    not empty and hold no line boundary: the day's file reads back as the
    list that was saved, order and repetitions kept, and that list heads the
    history loaded the next day, followed by the six days before. *)
Theorem save_arxiv_ids_round_trip (fs : files) (D : date)
    (new_arxiv_ids : list str) :
  Forall (λ x, x ≠ [] ∧ no_linebreak x) new_arxiv_ids →
  saved_ids (_save_arxiv_ids fs D new_arxiv_ids) D = new_arxiv_ids
  ∧ _load_old_arxiv_ids (_save_arxiv_ids fs D new_arxiv_ids) (D + 1)
    = Ok (new_arxiv_ids ++ saved_ids fs (D - 1) ++ saved_ids fs (D - 2)
          ++ saved_ids fs (D - 3) ++ saved_ids fs (D - 4)
          ++ saved_ids fs (D - 5) ++ saved_ids fs (D - 6))%Z.
Proof.
  intros Hids.
  assert (saved_ids (_save_arxiv_ids fs D new_arxiv_ids) D = new_arxiv_ids)
    as Hsame by (by rewrite saved_ids_save_eq, splitlines_join_round_trip).
  split; [done|]. rewrite load_old_arxiv_ids_spec. f_equal.
  change history_offsets with [1; 2; 3; 4; 5; 6; 7]%Z.
  cbn [fmap list_fmap concat].
  replace (D + 1 - 1)%Z with D by lia. rewrite Hsame.
  rewrite !saved_ids_save_ne by lia. rewrite app_nil_r.
  replace (D + 1 - 2)%Z with (D - 1)%Z by lia.
  replace (D + 1 - 3)%Z with (D - 2)%Z by lia.
  replace (D + 1 - 4)%Z with (D - 3)%Z by lia.
  replace (D + 1 - 5)%Z with (D - 4)%Z by lia.
  replace (D + 1 - 6)%Z with (D - 5)%Z by lia.
  by replace (D + 1 - 7)%Z with (D - 6)%Z by lia.
Qed.

Lemma save_arxiv_ids_round_trip_witness :
  let ids := [py "2401.01234"; py "2401.05678"; py "2401.01234"] in
  Forall (λ x, x ≠ [] ∧ no_linebreak x) ids
  ∧ _load_old_arxiv_ids (_save_arxiv_ids ∅ 738886 ids) (738886 + 1) = Ok ids.
Proof.
  cbv zeta.
  assert (Forall (λ x : str, x ≠ [] ∧ no_linebreak x)
            [py "2401.01234"; py "2401.05678"; py "2401.01234"]) as Hids.
  { repeat constructor; try done; vm_compute; repeat constructor. }
  split; [exact Hids|].
  destruct (save_arxiv_ids_round_trip ∅ 738886 _ Hids) as [_ ->].
  by vm_compute.
Defined.

(** X5.  The history window is exactly the seven days before today: a file
    saved for day [D] has no effect on the history loaded on a day that is
    not one of the seven days after [D].  In particular a run never sees the
    identifiers saved earlier the same day, and forgets a day's identifiers
    on the eighth day. *)
Theorem save_outside_window_is_not_loaded (fs : files) (D today : date)
    (new_arxiv_ids : list str) :
  ¬ (D < today ≤ D + 7)%Z →
  _load_old_arxiv_ids (_save_arxiv_ids fs D new_arxiv_ids) today
  = _load_old_arxiv_ids fs today.
Proof.
  intros Hout. rewrite !load_old_arxiv_ids_spec. f_equal. f_equal.
  apply list_fmap_ext. intros _ i Hi%list_elem_of_lookup_2.
  apply elem_of_history_offsets in Hi. apply saved_ids_save_ne. lia.
Qed.

Lemma save_outside_window_is_not_loaded_witness :
  ¬ (738886 < 738886 ≤ 738886 + 7)%Z
  ∧ ¬ (738886 < 738894 ≤ 738886 + 7)%Z
  ∧ _load_old_arxiv_ids (_save_arxiv_ids ∅ 738886 [py "2401.01234"]) 738886
    = Ok []
  ∧ _load_old_arxiv_ids (_save_arxiv_ids ∅ 738886 [py "2401.01234"]) 738894
    = Ok [].
Proof.
  assert (¬ (738886 < 738886 ≤ 738886 + 7)%Z) as H1 by lia.
  assert (¬ (738886 < 738894 ≤ 738886 + 7)%Z) as H2 by lia.
  split_and!; [exact H1|exact H2|..].
  - by rewrite (save_outside_window_is_not_loaded ∅ _ _ _ H1).
  - by rewrite (save_outside_window_is_not_loaded ∅ _ _ _ H2).
Defined.

(** X6.  [_remove_duplicates] returns no identifier exactly when every
    candidate is already in the history, and applying it again to its own
    result, against the same history, returns the same identifiers. *)
Theorem remove_duplicates_empty_and_idempotent
    (old_arxiv_ids new_arxiv_ids : list str) :
  (_remove_duplicates old_arxiv_ids new_arxiv_ids = []
   ↔ ∀ x, x ∈ new_arxiv_ids → x ∈ old_arxiv_ids)
  ∧ _remove_duplicates old_arxiv_ids
      (_remove_duplicates old_arxiv_ids new_arxiv_ids)
    ≡ₚ _remove_duplicates old_arxiv_ids new_arxiv_ids.
Proof.
  split.
  - split.
    + intros Hnil x Hx. destruct (decide (x ∈ old_arxiv_ids)); [done|].
      assert (x ∈ _remove_duplicates old_arxiv_ids new_arxiv_ids) as Hin
        by (by apply elem_of_remove_duplicates).
      rewrite Hnil in Hin. by apply elem_of_nil in Hin.
    + intros Hall.
      destruct (_remove_duplicates old_arxiv_ids new_arxiv_ids)
        as [|x l] eqn:Hl; [done|].
      assert (x ∈ _remove_duplicates old_arxiv_ids new_arxiv_ids) as Hin
        by (rewrite Hl; left).
      apply elem_of_remove_duplicates in Hin as [Hx Hnot]. by apply Hall in Hx.
  - apply NoDup_Permutation; [apply NoDup_elements..|].
    intros x. rewrite !elem_of_remove_duplicates.
    split; [by intros [? _]|by intros [? ?]].
Qed.

(** ** Paper identifiers *)

Lemma split_from_nonempty (sep : N) (s : str) :
  ∀ cur, split_from sep cur s ≠ [].
Proof.
  induction s as [|c s IH]; intros cur; simpl; [done|].
  destruct (c =? sep); [done|apply IH].
Qed.

Lemma last_cons_nonempty (x : str) (l : list str) :
  l ≠ [] → last (x :: l) = last l.
Proof. by destruct l. Qed.

Lemma split_from_no_sep (sep : N) (seg : str) :
  sep ∉ seg → ∀ cur, split_from sep cur seg = [reverse cur ++ seg].
Proof.
  induction seg as [|c seg IH]; intros Hseg cur; simpl.
  - by rewrite app_nil_r.
  - apply not_elem_of_cons in Hseg as [Hc Hseg].
    destruct (N.eqb_spec c sep) as [->|_]; [done|].
    by rewrite IH, reverse_cons, <- app_assoc.
Qed.

Lemma last_split_from_app (sep : N) (pre seg : str) :
  ∀ cur,
    last (split_from sep cur (pre ++ sep :: seg))
    = last (split_from sep [] seg).
Proof.
  induction pre as [|c pre IH]; intros cur; simpl.
  - rewrite N.eqb_refl. apply last_cons_nonempty, split_from_nonempty.
  - destruct (c =? sep); [|apply IH].
    rewrite last_cons_nonempty by apply split_from_nonempty. apply IH.
Qed.

Lemma last_split_from_no_sep (sep : N) (s : str) :
  ∀ cur x, sep ∉ cur → last (split_from sep cur s) = Some x → sep ∉ x.
Proof.
  induction s as [|c s IH]; intros cur x Hcur; simpl.
  - intros [= <-]. by rewrite elem_of_reverse.
  - destruct (N.eqb_spec c sep) as [->|Hc].
    + rewrite last_cons_nonempty by apply split_from_nonempty.
      apply IH. by intros ?%elem_of_nil.
    + apply IH. by intros [->|?]%elem_of_cons.
Qed.

(** The last piece after the last separator. *)
Lemma last_path_segment_app (pre seg : str) :
  0x2F ∉ seg → last_path_segment (pre ++ 0x2F :: seg) = seg.
Proof.
  intros Hseg. unfold last_path_segment, split.
  by rewrite last_split_from_app, split_from_no_sep.
Qed.

Lemma last_path_segment_no_slash (s : str) : 0x2F ∉ last_path_segment s.
Proof.
  unfold last_path_segment, split.
  destruct (last (split_from 0x2F [] s)) as [x|] eqn:Hx; simpl.
  - eapply last_split_from_no_sep; [|exact Hx]. by intros ?%elem_of_nil.
  - by intros ?%elem_of_nil.
Qed.

(** X7.  The identifier searched for is the argument itself unless the
    argument starts with https://arxiv.org/, and then it is what follows the
    last slash (empty when the address ends with a slash).  It never holds
    a slash in that case, and normalising twice is normalising once. *)
Theorem paper_info_arxiv_id_spec (id_or_url : str) :
  (startswith (py "https://arxiv.org/") id_or_url = false →
   paper_info_arxiv_id id_or_url = id_or_url)
  ∧ (startswith (py "https://arxiv.org/") id_or_url = true →
     (0x2F ∉ paper_info_arxiv_id id_or_url)
     ∧ ∀ pre arxiv_id,
         id_or_url = pre ++ 0x2F :: arxiv_id → 0x2F ∉ arxiv_id →
         paper_info_arxiv_id id_or_url = arxiv_id)
  ∧ paper_info_arxiv_id (paper_info_arxiv_id id_or_url)
    = paper_info_arxiv_id id_or_url.
Proof.
  assert (∀ s, 0x2F ∉ s → paper_info_arxiv_id s = s) as Hplain.
  { intros s Hs. unfold paper_info_arxiv_id.
    destruct (startswith _ s) eqn:Hp; [|done].
    apply startswith_spec in Hp as [post ->]. exfalso. apply Hs.
    apply elem_of_app. left. by apply str_in_single. }
  destruct (startswith (py "https://arxiv.org/") id_or_url) eqn:Hp.
  - assert (paper_info_arxiv_id id_or_url = last_path_segment id_or_url)
      as -> by (unfold paper_info_arxiv_id; by rewrite Hp).
    split_and!; [done| |apply Hplain, last_path_segment_no_slash].
    intros _. split; [apply last_path_segment_no_slash|].
    intros pre arxiv_id -> Hid. by apply last_path_segment_app.
  - assert (paper_info_arxiv_id id_or_url = id_or_url)
      as Hid by (unfold paper_info_arxiv_id; by rewrite Hp).
    rewrite !Hid. done.
Qed.

Lemma paper_info_arxiv_id_spec_witness :
  let url := py "https://arxiv.org/abs/2401.01234" in
  startswith (py "https://arxiv.org/") url = true
  ∧ url = py "https://arxiv.org/abs" ++ 0x2F :: py "2401.01234"
  ∧ (0x2F ∉ py "2401.01234")
  ∧ paper_info_arxiv_id url = py "2401.01234"
  ∧ (startswith (py "https://arxiv.org/") (py "2401.01234") = false →
     paper_info_arxiv_id (py "2401.01234") = py "2401.01234").
Proof.
  cbv zeta.
  assert (0x2F ∉ py "2401.01234") as Hid.
  { apply str_in_single_false. reflexivity. }
  split_and!; [reflexivity|reflexivity|exact Hid| |].
  - destruct (paper_info_arxiv_id_spec (py "https://arxiv.org/abs/2401.01234"))
      as (_ & Hurl & _).
    destruct (Hurl eq_refl) as [_ Hlast].
    by apply (Hlast (py "https://arxiv.org/abs")).
  - apply (paper_info_arxiv_id_spec (py "2401.01234")).
Defined.

(** ** Summary clean-up *)

Lemma startswith_drop (needle s : str) :
  startswith needle s = true → s = needle ++ drop (length needle) s.
Proof.
  intros [post ->]%startswith_spec. by rewrite drop_app_length.
Qed.

Lemma find_first_Some (needle s pre post : str) :
  find_first needle s = Some (pre, post) → s = pre ++ needle ++ post.
Proof.
  revert pre. induction s as [|c s IH]; intros pre; simpl.
  - destruct (startswith needle []) eqn:Hp; [|done].
    intros [= <- <-]. by apply startswith_drop.
  - destruct (startswith needle (c :: s)) eqn:Hp.
    + intros [= <- <-]. by apply startswith_drop.
    + destruct (find_first needle s) as [[pre' post']|]; [|done].
      simpl. intros [= <- <-]. by rewrite (IH pre' eq_refl).
Qed.

Lemma find_first_here (needle rest : str) :
  find_first needle (needle ++ rest) = Some ([], rest).
Proof.
  assert (startswith needle (needle ++ rest) = true) as Hp
    by (apply startswith_spec; eauto).
  destruct (needle ++ rest) eqn:Heq; simpl; rewrite Hp;
    by rewrite <- Heq, drop_app_length.
Qed.

Lemma find_last_Some (needle s pre post : str) :
  find_last needle s = Some (pre, post) → s = pre ++ needle ++ post.
Proof.
  unfold find_last.
  destruct (find_first (reverse needle) (reverse s)) as [[a b]|] eqn:Hf;
    [|done].
  simpl. intros [= <- <-]. apply find_first_Some in Hf.
  apply (f_equal reverse) in Hf.
  by rewrite reverse_involutive, !reverse_app, reverse_involutive,
    <- app_assoc in Hf.
Qed.

Lemma find_last_end (needle s : str) :
  find_last needle (s ++ needle) = Some (s, []).
Proof.
  unfold find_last. rewrite reverse_app, find_first_here. simpl.
  by rewrite reverse_involutive.
Qed.

Lemma remove_outer_unwraps (opening closing inner : str) :
  remove_outer opening closing (opening ++ inner ++ closing) = inner.
Proof.
  unfold remove_outer. rewrite find_first_here, find_last_end.
  by rewrite app_nil_r.
Qed.

Lemma remove_outer_sublist (opening closing text : str) :
  remove_outer opening closing text `sublist_of` text.
Proof.
  unfold remove_outer.
  destruct (find_first opening text) as [[before rest]|] eqn:Hf; [|done].
  destruct (find_last closing rest) as [[group after]|] eqn:Hl; [|done].
  apply find_first_Some in Hf as ->. apply find_last_Some in Hl as ->.
  apply sublist_app; [done|]. apply sublist_inserts_l.
  apply sublist_app; [done|]. by apply sublist_inserts_l.
Qed.

Lemma remove_outer_absent (opening closing text : str) (c : N) :
  c ∈ opening → c ∉ text → remove_outer opening closing text = text.
Proof.
  intros Hc Hnot. unfold remove_outer.
  destruct (find_first opening text) as [[before rest]|] eqn:Hf; [|done].
  apply find_first_Some in Hf as ->. exfalso. apply Hnot.
  rewrite !elem_of_app. auto.
Qed.

Lemma removelast_sublist (l : str) : removelast l `sublist_of` l.
Proof. rewrite removelast_firstn_len. apply sublist_take. Qed.

(** The text that [remove_tex_backticks] tests, and the line feed set
    aside. *)
Lemma tex_body_tail (text : str) :
  ∃ body tail,
    text = body ++ tail
    ∧ (match last text with
       | Some c => if c =? LF then (removelast text, [LF]) else (text, [])
       | None => (text, [])
       end) = (body, tail).
Proof.
  destruct (last text) as [c|] eqn:Hlast.
  - destruct (c =? LF) eqn:Hc.
    + apply N.eqb_eq in Hc as ->. apply last_Some in Hlast as [l' ->].
      exists l', [LF]. by rewrite removelast_last.
    + exists text, []. by rewrite app_nil_r.
  - exists text, []. by rewrite app_nil_r.
Qed.

Lemma remove_tex_backticks_sublist (text : str) :
  remove_tex_backticks text `sublist_of` text.
Proof.
  unfold remove_tex_backticks.
  destruct (tex_body_tail text) as (body & tail & Htext & ->).
  destruct (_ && _); [|done]. rewrite Htext.
  apply sublist_app; [|done].
  etrans; [apply sublist_drop|apply removelast_sublist].
Qed.

Lemma remove_tex_backticks_absent (text : str) :
  backtick ∉ text → remove_tex_backticks text = text.
Proof.
  intros Hnot. unfold remove_tex_backticks.
  destruct (tex_body_tail text) as (body & tail & Htext & ->).
  destruct (startswith [backtick; dollar] body) eqn:Hp; [|done].
  apply startswith_spec in Hp as [post ->]. exfalso. apply Hnot.
  rewrite Htext. apply elem_of_app. left. by left.
Qed.

Lemma remove_tex_backticks_wrapped (inner tail : str) :
  tail = [] ∨ tail = [LF] →
  remove_tex_backticks
    ([backtick; dollar] ++ inner ++ [dollar; backtick] ++ tail)
  = if str_in [LF] inner
    then [backtick; dollar] ++ inner ++ [dollar; backtick] ++ tail
    else [dollar] ++ inner ++ [dollar] ++ tail.
Proof.
  intros Htail. unfold remove_tex_backticks.
  set (body := [backtick; dollar] ++ inner ++ [dollar; backtick]).
  assert (match last (body ++ tail) with
          | Some c =>
              if c =? LF then (removelast (body ++ tail), [LF])
              else (body ++ tail, [])
          | None => (body ++ tail, [])
          end = (body, tail)) as Hsplit.
  { destruct Htail as [-> | ->].
    - rewrite app_nil_r. unfold body.
      rewrite !app_assoc, (app_assoc _ [dollar] [backtick]), last_snoc.
      done.
    - by rewrite last_snoc, removelast_last. }
  replace ([backtick; dollar] ++ inner ++ [dollar; backtick] ++ tail)
    with (body ++ tail) by (unfold body; by rewrite <- !app_assoc).
  rewrite Hsplit.
  assert (startswith [backtick; dollar] body = true) as ->
    by (apply startswith_spec; eauto).
  assert (startswith [backtick; dollar] (reverse body) = true) as ->.
  { apply startswith_spec. exists (reverse inner ++ [dollar; backtick]).
    unfold body. by rewrite !reverse_app. }
  assert ((4 <=? length body)%nat = true) as ->.
  { apply Nat.leb_le. unfold body. rewrite !length_app. simpl. lia. }
  assert (str_in [LF] body = str_in [LF] inner) as ->.
  { destruct (str_in [LF] inner) eqn:Hin.
    - apply str_in_single. apply str_in_single in Hin. unfold body.
      rewrite !elem_of_app. auto.
    - apply str_in_single_false. apply str_in_single_false in Hin.
      unfold body. rewrite !elem_of_app.
      intros [H|[H|H]]; [|done|].
      + by apply elem_of_cons in H as [?|[?|?%elem_of_nil]%elem_of_cons].
      + by apply elem_of_cons in H as [?|[?|?%elem_of_nil]%elem_of_cons]. }
  destruct (str_in [LF] inner); cbn [andb negb].
  - unfold body. by rewrite <- !app_assoc.
  - assert (removelast body = backtick :: dollar :: inner ++ [dollar]) as ->.
    { unfold body.
      replace ([backtick; dollar] ++ inner ++ [dollar; backtick])
        with ((backtick :: dollar :: inner ++ [dollar]) ++ [backtick])
        by (simpl; by rewrite <- app_assoc).
      apply removelast_last. }
    simpl. by rewrite <- app_assoc.
Qed.

(** X8.  A text wrapped in a markdown fence loses exactly the opening fence
    and the closing fence, and a text wrapped in triple single quotes loses
    exactly those, whatever is inside: fences and quotes within the text
    stay. *)
Theorem remove_outer_markers_unwrap (inner : str) :
  remove_outer_markdown_markers
    (replicate 3 backtick ++ py "markdown" ++ inner ++ replicate 3 backtick)
  = inner
  ∧ remove_outer_singlequotes (py "'''" ++ inner ++ py "'''") = inner.
Proof.
  split.
  - unfold remove_outer_markdown_markers.
    rewrite (app_assoc (replicate 3 backtick)). apply remove_outer_unwraps.
  - apply remove_outer_unwraps.
Qed.

(** X9.  [_stylize_paper_info] only deletes characters: its result is a
    subsequence of the summary, hence no longer than it, and a summary with
    no backtick and no single quote comes back unchanged. *)
Theorem stylize_paper_info_only_deletes (summary : str) :
  _stylize_paper_info summary `sublist_of` summary
  ∧ (length (_stylize_paper_info summary) ≤ length summary)%nat
  ∧ (backtick ∉ summary → 0x27 ∉ summary →
     _stylize_paper_info summary = summary).
Proof.
  assert (_stylize_paper_info summary `sublist_of` summary) as Hsub.
  { unfold _stylize_paper_info, remove_outer_singlequotes,
      remove_outer_markdown_markers.
    etrans; [apply remove_outer_sublist|].
    etrans; [apply remove_outer_sublist|].
    apply remove_tex_backticks_sublist. }
  split_and!; [done|by apply sublist_length|].
  intros Hbt Hq. unfold _stylize_paper_info.
  rewrite (remove_tex_backticks_absent _ Hbt).
  unfold remove_outer_markdown_markers.
  rewrite (remove_outer_absent _ _ _ backtick); [|by left|done].
  unfold remove_outer_singlequotes.
  apply (remove_outer_absent _ _ _ 0x27); [by left|done].
Qed.

Lemma stylize_paper_info_only_deletes_witness :
  let summary := py "The paper proposes a parser. It is verified." in
  (backtick ∉ summary) ∧ (0x27 ∉ summary)
  ∧ _stylize_paper_info summary = summary.
Proof.
  cbv zeta.
  assert (backtick ∉ py "The paper proposes a parser. It is verified.")
    as Hbt by (by apply str_in_single_false).
  assert (0x27 ∉ py "The paper proposes a parser. It is verified.")
    as Hq by (by apply str_in_single_false).
  split_and!; [exact Hbt|exact Hq|].
  by apply (stylize_paper_info_only_deletes _).
Defined.

(** X10.  [remove_tex_backticks] unwraps a text that is, up to a line feed
    that ends it, a backtick, a dollar, an inner text, a dollar and a
    backtick: the two backticks go when the inner text has no line feed, and
    the text is left as it is when it has one. *)
Theorem remove_tex_backticks_unwraps_one_line (inner tail : str) :
  tail = [] ∨ tail = [LF] →
  (LF ∉ inner →
   remove_tex_backticks
     ([backtick; dollar] ++ inner ++ [dollar; backtick] ++ tail)
   = [dollar] ++ inner ++ [dollar] ++ tail)
  ∧ (LF ∈ inner →
     remove_tex_backticks
       ([backtick; dollar] ++ inner ++ [dollar; backtick] ++ tail)
     = [backtick; dollar] ++ inner ++ [dollar; backtick] ++ tail).
Proof.
  intros Htail. rewrite (remove_tex_backticks_wrapped _ _ Htail). split.
  - intros Hin%str_in_single_false. by rewrite Hin.
  - intros Hin%str_in_single. by rewrite Hin.
Qed.

Lemma remove_tex_backticks_unwraps_one_line_witness :
  (([] : str) = [] ∨ ([] : str) = [LF])
  ∧ (LF ∉ py "x^2")
  ∧ remove_tex_backticks
      ([backtick; dollar] ++ py "x^2" ++ [dollar; backtick] ++ [])
    = [dollar] ++ py "x^2" ++ [dollar] ++ [].
Proof.
  assert (LF ∉ py "x^2") as Hin by (by apply str_in_single_false).
  split_and!; [by left|exact Hin|].
  by apply (remove_tex_backticks_unwraps_one_line (py "x^2") []
              (or_introl eq_refl)).
Defined.

(** ** The listing of new papers *)

Section PaperIdsProperties.
Variable isdigit : N → bool.

Lemma match_literal_spec (literal s rest : str) :
  match_literal literal s = Some rest ↔ s = literal ++ rest.
Proof.
  unfold match_literal. destruct (startswith literal s) eqn:Hp.
  - pose proof (startswith_drop _ _ Hp) as Hs. split.
    + intros [= <-]. done.
    + intros ->. by rewrite drop_app_length.
  - split; [done|]. intros ->.
    assert (startswith literal (literal ++ rest) = true) as Ht
      by (apply startswith_spec; eauto).
    congruence.
Qed.

Lemma match_digits_spec (n : nat) :
  ∀ s rest,
    match_digits isdigit n s = Some rest ↔
      ∃ ds, s = ds ++ rest ∧ length ds = n
            ∧ Forall (λ c, isdigit c = true) ds.
Proof.
  induction n as [|n IH]; intros s rest; simpl.
  - split.
    + intros [= ->]. by exists [].
    + intros (ds & -> & Hlen & _). by destruct ds.
  - destruct s as [|c s].
    + split; [done|]. intros (ds & Hs & Hlen & _). by destruct ds.
    + destruct (isdigit c) eqn:Hc.
      * rewrite IH. split.
        -- intros (ds & -> & Hlen & Hds). exists (c :: ds). simpl.
           split_and!; [done|by rewrite Hlen|by constructor].
        -- intros ([|d ds] & Hs & Hlen & Hds); [done|].
           simpl in *. injection Hs as -> ->. injection Hlen as Hlen.
           apply Forall_cons in Hds as [_ Hds]. eauto.
      * split; [done|]. intros ([|d ds] & Hs & Hlen & Hds); [done|].
        simpl in Hs. injection Hs as -> ->.
        apply Forall_cons in Hds as [Hd _]. congruence.
Qed.

Local Arguments match_digits : simpl never.
Local Arguments match_literal : simpl never.

(** What the pattern matches. *)
Lemma is_paper_href_spec (href : str) :
  is_paper_href isdigit href = true ↔
    ∃ d4 d5 tail,
      href = py "/papers/" ++ d4 ++ py "." ++ d5 ++ tail
      ∧ length d4 = 4%nat ∧ length d5 = 5%nat
      ∧ Forall (λ c, isdigit c = true) d4
      ∧ Forall (λ c, isdigit c = true) d5
      ∧ (tail = [] ∨ tail = [LF]).
Proof.
  unfold is_paper_href. split.
  - destruct (match_literal (py "/papers/") href) as [r1|] eqn:H1;
      simpl; [|done].
    destruct (match_digits isdigit 4 r1) as [r2|] eqn:H2; simpl; [|done].
    destruct (match_literal (py ".") r2) as [r3|] eqn:H3; simpl; [|done].
    destruct (match_digits isdigit 5 r3) as [r4|] eqn:H4; simpl; [|done].
    apply match_literal_spec in H1 as ->.
    apply match_digits_spec in H2 as (d4 & -> & ? & ?).
    apply match_literal_spec in H3 as ->.
    apply match_digits_spec in H4 as (d5 & -> & ? & ?).
    intros Htail. exists d4, d5, r4. split_and!; try done.
    apply orb_true_iff in Htail as [Ht|Ht]; apply bool_decide_eq_true in Ht;
      auto.
  - intros (d4 & d5 & tail & -> & Hl4 & Hl5 & Hd4 & Hd5 & Htail).
    rewrite (proj2 (match_literal_spec _ _ _) eq_refl).
    cbn [mbind option_bind].
    rewrite (proj2 (match_digits_spec 4 _ (py "." ++ d5 ++ tail))) by eauto.
    cbn [mbind option_bind].
    rewrite (proj2 (match_literal_spec (py ".") _ (d5 ++ tail)) eq_refl).
    cbn [mbind option_bind].
    rewrite (proj2 (match_digits_spec 5 _ tail)) by eauto.
    by destruct Htail as [-> | ->].
Qed.

Lemma anchors_loop_ok (anchors : list (option str)) :
  None ∉ anchors →
  ∀ arxiv_ids, ∃ new,
    anchors_loop isdigit anchors arxiv_ids = Ok (arxiv_ids ++ new)
    ∧ ∀ x, x ∈ new ↔
           ∃ href, Some href ∈ anchors
                   ∧ is_paper_href isdigit href = true
                   ∧ x = last_path_segment href.
Proof.
  induction anchors as [|[href|] anchors IH]; intros Hnone acc.
  - exists []. rewrite app_nil_r. split; [done|]. intros x. split.
    + by intros ?%elem_of_nil.
    + by intros (? & ?%elem_of_nil & _).
  - apply not_elem_of_cons in Hnone as [_ Hnone]. simpl.
    destruct (is_paper_href isdigit href) eqn:Hm.
    + destruct (IH Hnone (acc ++ [last_path_segment href])) as (new & -> & Hnew).
      exists (last_path_segment href :: new).
      split; [by rewrite <- app_assoc|]. intros x.
      rewrite elem_of_cons, Hnew. split.
      * intros [->|(h & Hh & ? & ?)].
        -- exists href. split_and!; [by left|done..].
        -- exists h. split_and!; [by right|done..].
      * intros (h & [[= ->]|Hh]%elem_of_cons & ? & ?); [by left|].
        right. eauto.
    + destruct (IH Hnone acc) as (new & -> & Hnew). exists new.
      split; [done|]. intros x. rewrite Hnew. split.
      * intros (h & Hh & ? & ?). exists h. split_and!; [by right|done..].
      * intros (h & [[= ->]|Hh]%elem_of_cons & ? & ?); [congruence|eauto].
  - exfalso. apply Hnone. by left.
Qed.

Lemma anchors_loop_None (anchors : list (option str)) :
  None ∈ anchors →
  ∀ arxiv_ids,
    anchors_loop isdigit anchors arxiv_ids = Raise (OtherException "TypeError").
Proof.
  induction anchors as [|[href|] anchors IH]; intros Hnone acc.
  - by apply elem_of_nil in Hnone.
  - apply elem_of_cons in Hnone as [?|Hnone]; [done|]. simpl.
    destruct (is_paper_href isdigit href); by apply IH.
  - done.
Qed.

Lemma articles_loop_ok (articles : list (list (option str))) :
  (∀ anchors, anchors ∈ articles → None ∉ anchors) →
  ∀ arxiv_ids, ∃ new,
    articles_loop isdigit articles arxiv_ids = Ok (arxiv_ids ++ new)
    ∧ ∀ x, x ∈ new ↔
           ∃ anchors href,
             anchors ∈ articles ∧ Some href ∈ anchors
             ∧ is_paper_href isdigit href = true
             ∧ x = last_path_segment href.
Proof.
  induction articles as [|anchors articles IH]; intros Hnone acc.
  - exists []. rewrite app_nil_r. split; [done|]. intros x. split.
    + by intros ?%elem_of_nil.
    + by intros (? & ? & ?%elem_of_nil & _).
  - simpl.
    destruct (anchors_loop_ok anchors (Hnone anchors (list_elem_of_here _ _)) acc)
      as (new1 & -> & Hnew1).
    simpl.
    destruct (IH (λ a Ha, Hnone a (list_elem_of_further _ _ _ Ha))
                 (acc ++ new1)) as (new2 & -> & Hnew2).
    exists (new1 ++ new2). split; [by rewrite <- app_assoc|].
    intros x. rewrite elem_of_app, Hnew1, Hnew2. split.
    + intros [(h & ? & ? & ?)|(a & h & ? & ? & ? & ?)].
      * exists anchors, h. split_and!; [by left|done..].
      * exists a, h. split_and!; [by right|done..].
    + intros (a & h & [->|Ha]%elem_of_cons & ? & ? & ?).
      * left. exists h. done.
      * right. exists a, h. done.
Qed.

Lemma articles_loop_None (articles : list (list (option str))) :
  (∃ anchors, anchors ∈ articles ∧ None ∈ anchors) →
  ∀ arxiv_ids,
    articles_loop isdigit articles arxiv_ids
    = Raise (OtherException "TypeError").
Proof.
  induction articles as [|anchors articles IH]; intros (a & Ha & Hnone) acc.
  - by apply elem_of_nil in Ha.
  - simpl. destruct (decide (None ∈ anchors)) as [Hin|Hnot].
    + by rewrite anchors_loop_None.
    + destruct (anchors_loop_ok anchors Hnot acc) as (new & -> & _). simpl.
      apply IH. exists a. split; [|done].
      apply elem_of_cons in Ha as [->|?]; done.
Qed.
End PaperIdsProperties.

Section PaperIdsTheorems.
Variable isdigit : N → bool.

(** X11.  A failed request yields the empty list rather than an error.  When
    every anchor of every article has an [href], the retrieval returns,
    without repetition, exactly the last path segments of the [href]s that
    match the pattern. *)
Theorem retrieve_from_hugging_face_ids (articles : list (list (option str))) :
  retrieve_from_hugging_face isdigit RequestException = Ok []
  ∧ ((∀ anchors, anchors ∈ articles → None ∉ anchors) →
     ∃ arxiv_ids,
       retrieve_from_hugging_face isdigit (Articles articles) = Ok arxiv_ids
       ∧ NoDup arxiv_ids
       ∧ ∀ x, x ∈ arxiv_ids ↔
              ∃ anchors href,
                anchors ∈ articles ∧ Some href ∈ anchors
                ∧ is_paper_href isdigit href = true
                ∧ x = last_path_segment href).
Proof.
  split; [done|]. intros Hnone. unfold retrieve_from_hugging_face.
  destruct (articles_loop_ok isdigit articles Hnone []) as (new & -> & Hnew).
  simpl. eexists. split_and!; [done|apply NoDup_elements|].
  intros x. by rewrite elem_of_elements, elem_of_list_to_set, Hnew.
Qed.

(** X12.  One anchor without an [href], in any article, makes the whole
    retrieval raise [TypeError]: the exception is not a [RequestException],
    so it is not caught, and the identifiers found before it are lost. *)
Theorem retrieve_from_hugging_face_missing_href
    (articles : list (list (option str))) (anchors : list (option str)) :
  anchors ∈ articles → None ∈ anchors →
  retrieve_from_hugging_face isdigit (Articles articles)
  = Raise (OtherException "TypeError").
Proof.
  intros Ha Hnone. unfold retrieve_from_hugging_face.
  rewrite articles_loop_None; [done|]. eauto.
Qed.

(** X13.  An [href] matches exactly when it is /papers/ followed by four
    digits, a dot and five digits, possibly with one line feed after them;
    as no digit is a slash, the identifier taken from it is all of that
    after /papers/, the line feed included. *)
Theorem paper_href_identifier (href : str) :
  isdigit 0x2F = false →
  is_paper_href isdigit href = true ↔
    ∃ d4 d5 tail,
      href = py "/papers/" ++ d4 ++ py "." ++ d5 ++ tail
      ∧ length d4 = 4%nat ∧ length d5 = 5%nat
      ∧ Forall (λ c, isdigit c = true) d4
      ∧ Forall (λ c, isdigit c = true) d5
      ∧ (tail = [] ∨ tail = [LF])
      ∧ last_path_segment href = d4 ++ py "." ++ d5 ++ tail.
Proof.
  intros Hslash. rewrite is_paper_href_spec. split.
  - intros (d4 & d5 & tail & -> & Hl4 & Hl5 & Hd4 & Hd5 & Htail).
    exists d4, d5, tail. split_and!; try done.
    change (py "/papers/" ++ d4 ++ py "." ++ d5 ++ tail)
      with (py "/papers" ++ 0x2F :: (d4 ++ py "." ++ d5 ++ tail)).
    apply last_path_segment_app.
    assert (∀ ds, Forall (λ c, isdigit c = true) ds → 0x2F ∉ ds) as Hds.
    { intros ds Hall Hin. eapply Forall_forall in Hall; [|done]. congruence. }
    rewrite !elem_of_app. intros [H|[H|[H|H]]].
    + by apply (Hds d4).
    + by apply list_elem_of_singleton in H.
    + by apply (Hds d5).
    + destruct Htail as [-> | ->]; [by apply elem_of_nil in H|].
      by apply list_elem_of_singleton in H.
  - intros (d4 & d5 & tail & ? & ? & ? & ? & ? & ? & _). eauto 10.
Qed.
End PaperIdsTheorems.

Lemma retrieve_from_hugging_face_ids_witness :
  let articles :=
    [ [Some (py "/papers/2401.01234"); Some (py "/login")];
      [Some (py "/papers/2401.01234"); Some (py "/papers/2401.05678")] ] in
  (∀ anchors, anchors ∈ articles → None ∉ anchors)
  ∧ ∃ arxiv_ids,
      retrieve_from_hugging_face ascii_isdigit (Articles articles)
      = Ok arxiv_ids
      ∧ NoDup arxiv_ids
      ∧ length arxiv_ids = 2%nat.
Proof.
  cbv zeta.
  lazymatch goal with
  | |- ?hyp ∧ _ => assert hyp as Hnone
  end.
  { intros anchors Ha.
    repeat (apply elem_of_cons in Ha as [->|Ha];
            [intros Hn; repeat (apply elem_of_cons in Hn as [?|Hn]; [done|]);
             by apply elem_of_nil in Hn|]).
    by apply elem_of_nil in Ha. }
  split; [exact Hnone|].
  lazymatch type of Hnone with
  | ∀ anchors, anchors ∈ ?articles → _ =>
      destruct (retrieve_from_hugging_face_ids ascii_isdigit articles)
        as [_ Hok]
  end.
  destruct (Hok Hnone) as (ids & Hids & Hnodup & _).
  exists ids. split_and!; [exact Hids|exact Hnodup|].
  vm_compute in Hids. injection Hids as <-. reflexivity.
Defined.

Lemma retrieve_from_hugging_face_missing_href_witness :
  let anchors := [Some (py "/papers/2401.01234"); None] in
  anchors ∈ [anchors] ∧ None ∈ anchors
  ∧ retrieve_from_hugging_face ascii_isdigit (Articles [anchors])
    = Raise (OtherException "TypeError").
Proof.
  cbv zeta.
  lazymatch goal with
  | |- ?h1 ∧ ?h2 ∧ _ =>
      assert h1 as H1 by left; assert h2 as H2 by (right; left)
  end.
  split_and!; [exact H1|exact H2|].
  exact (retrieve_from_hugging_face_missing_href ascii_isdigit _ _ H1 H2).
Defined.

Lemma paper_href_identifier_witness :
  ascii_isdigit 0x2F = false
  ∧ is_paper_href ascii_isdigit (py "/papers/2401.01234" ++ [LF]) = true
  ∧ last_path_segment (py "/papers/2401.01234" ++ [LF])
    = py "2401.01234" ++ [LF].
Proof.
  assert (ascii_isdigit 0x2F = false) as Hslash by reflexivity.
  assert (is_paper_href ascii_isdigit (py "/papers/2401.01234" ++ [LF]) = true)
    as Hm by reflexivity.
  split_and!; [exact Hslash|exact Hm|].
  apply (paper_href_identifier ascii_isdigit _ Hslash) in Hm
    as (d4 & d5 & tail & Hhref & _ & _ & _ & _ & _ & ->).
  change (py "/papers/2401.01234" ++ [LF])
    with (py "/papers/" ++ py "2401.01234" ++ [LF]) in Hhref.
  by apply app_inv_head in Hhref.
Defined.

(** ** Hot posts: what is kept, and when the retrieval fails *)

Lemma fallback_url_raise (m : option media_dict) (e : exn) :
  fallback_url m = Raise e → e = AttributeError.
Proof. destruct m; simpl; [done|]. by intros [= <-]. Qed.

Lemma post_url_raise (post : Submission.t) (e : exn) :
  post_url post = Raise e → e = AttributeError.
Proof.
  unfold post_url, _get_video_url. destruct (bool_decide _); [|done].
  destruct (Submission.media post); [apply fallback_url_raise|].
  destruct (Submission.secure_media post); [apply fallback_url_raise|done].
Qed.

(** When the loop cannot get past a submission. *)
Lemma readable_false (post : Submission.t) :
  readable post = false ↔
    Submission.author post = None
    ∨ (__judge_post_type post = Video
       ∧ (Submission.media post = Some None
          ∨ (Submission.media post = None
             ∧ Submission.secure_media post = Some None))).
Proof.
  unfold readable, post_url, _get_video_url.
  destruct (Submission.author post) as [a|].
  2: { split; [auto|]. intros _. by destruct (if bool_decide _ then _ else _). }
  case_bool_decide as Hty.
  - destruct (Submission.media post) as [[m|]|];
      [| |destruct (Submission.secure_media post) as [[m|]|]]; simpl;
      intuition congruence.
  - intuition congruence.
Qed.

Section HotPostsFurther.
Variable lower : str → str.

Lemma hot_posts_loop_complete (listing : list Submission.t) :
  Forall (λ post, readable post = true) listing →
  ∀ posts,
    hot_posts_loop lower listing posts
    = Ok (posts ++ (post_of <$> List.filter (desired lower) listing)).
Proof.
  induction listing as [|post rest IH]; intros Hall posts.
  - simpl. by rewrite app_nil_r.
  - apply Forall_cons in Hall as [Hpost Hrest]. specialize (IH Hrest).
    cbn [hot_posts_loop List.filter].
    change (if bool_decide (__judge_post_type post = Video)
            then _get_video_url post
            else Ok (Some (Submission.url post))) with (post_url post).
    unfold readable in Hpost.
    destruct (post_url post) as [url|] eqn:Hurl; [|done].
    destruct (Submission.author post) as [author|] eqn:Hauthor; [|done].
    cbn [mbind result_bind].
    assert (desired lower post
            = negb (undesired lower author post (__judge_post_type post)))
      as -> by (unfold desired; by rewrite Hauthor).
    assert (post_of post = make_post post (__judge_post_type post) url)
      as Hp by (unfold post_of; by rewrite Hurl).
    destruct (undesired lower author post (__judge_post_type post));
      cbn [negb]; rewrite IH; [done|].
    by rewrite fmap_cons, Hp, <- app_assoc.
Qed.

Lemma hot_posts_loop_head_unreadable (post : Submission.t)
    (rest : list Submission.t) (posts : list RedditPost.t) :
  readable post = false →
  hot_posts_loop lower (post :: rest) posts = Raise AttributeError.
Proof.
  intros Hbad. cbn [hot_posts_loop].
  change (if bool_decide (__judge_post_type post = Video)
          then _get_video_url post
          else Ok (Some (Submission.url post))) with (post_url post).
  unfold readable in Hbad.
  destruct (post_url post) as [url|e] eqn:Hurl.
  - by destruct (Submission.author post).
  - by apply post_url_raise in Hurl as ->.
Qed.

Lemma hot_posts_loop_unreadable (listing : list Submission.t)
    (post : Submission.t) :
  post ∈ listing → readable post = false →
  ∀ posts, hot_posts_loop lower listing posts = Raise AttributeError.
Proof.
  intros Hin Hbad. induction listing as [|p rest IH]; intros posts.
  - by apply elem_of_nil in Hin.
  - destruct (readable p) eqn:Hp;
      [|by apply hot_posts_loop_head_unreadable].
    apply elem_of_cons in Hin as [->|Hin]; [congruence|].
    cbn [hot_posts_loop].
    change (if bool_decide (__judge_post_type p = Video)
            then _get_video_url p
            else Ok (Some (Submission.url p))) with (post_url p).
    unfold readable in Hp.
    destruct (post_url p) as [url|]; [|done].
    destruct (Submission.author p) as [author|]; [|done].
    cbn [mbind result_bind].
    destruct (undesired lower author p _); by apply IH.
Qed.

(** X14.  When the loop can get past each of the first [limit] submissions,
    [_retrieve_hot_posts] returns exactly the ones that pass the four tests,
    each as its post, in the order of the listing: no passing submission is
    left out. *)
Theorem retrieve_hot_posts_complete (hot : list Submission.t)
    (limit : option nat) :
  let n := default reddit_top_posts_limit limit in
  (∀ post, post ∈ take n hot → readable post = true) →
  _retrieve_hot_posts lower hot limit
  = Ok (post_of <$> List.filter (desired lower) (take n hot)).
Proof.
  cbv zeta. intros Hall. unfold _retrieve_hot_posts.
  rewrite hot_posts_loop_complete; [done|]. by apply Forall_forall.
Qed.

(** X15.  One submission among the first [limit] whose author is gone, or
    that is a video whose media description is [None], makes the whole
    retrieval raise [AttributeError], whether or not the tests would have
    dropped it. *)
Theorem retrieve_hot_posts_unreadable (hot : list Submission.t)
    (limit : option nat) (post : Submission.t) :
  post ∈ take (default reddit_top_posts_limit limit) hot →
  Submission.author post = None
  ∨ (__judge_post_type post = Video
     ∧ (Submission.media post = Some None
        ∨ (Submission.media post = None
           ∧ Submission.secure_media post = Some None))) →
  _retrieve_hot_posts lower hot limit = Raise AttributeError.
Proof.
  intros Hin Hbad%readable_false. unfold _retrieve_hot_posts.
  by eapply hot_posts_loop_unreadable.
Qed.
End HotPostsFurther.

Lemma retrieve_hot_posts_complete_witness :
  let submission author title ratio :=
    {| Submission.post_hint := None;
       Submission.is_gallery := None;
       Submission.is_video := Some false;
       Submission.has_poll_data := false;
       Submission.has_crosspost_parent := false;
       Submission.is_self := true;
       Submission.media := Some None;
       Submission.secure_media := Some None;
       Submission.author := Some (py author);
       Submission.id := py "1abcde";
       Submission.title := py title;
       Submission.url := py "https://example.org/";
       Submission.ups := 120;
       Submission.upvote_ratio := ratio;
       Submission.selftext := [];
       Submission.thumbnail := py "self";
       Submission.permalink := py "/r/rocq/comments/1abcde/" |} in
  let hot :=
    [ submission "alice" "A verified parser" (93 # 100);
      submission "bob" "Hot take" (55 # 100);
      submission "carol" "Proof engineering" (88 # 100) ] in
  (∀ post, post ∈ take (default reddit_top_posts_limit None) hot →
           readable post = true)
  ∧ RedditPost.title <$> (post_of <$> List.filter (desired ascii_lower) hot)
    = [py "A verified parser"; py "Proof engineering"]
  ∧ _retrieve_hot_posts ascii_lower hot None
    = Ok (post_of <$> List.filter (desired ascii_lower)
                        (take (default reddit_top_posts_limit None) hot)).
Proof.
  cbv zeta.
  lazymatch goal with
  | |- ?hyp ∧ _ => assert hyp as Hall
  end.
  { intros post Hin. cbn [default take reddit_top_posts_limit] in Hin.
    repeat (apply elem_of_cons in Hin as [->|Hin]; [reflexivity|]).
    by apply elem_of_nil in Hin. }
  split_and!; [exact Hall|by vm_compute|].
  exact (retrieve_hot_posts_complete ascii_lower _ None Hall).
Defined.

Lemma retrieve_hot_posts_unreadable_witness :
  let deleted :=
    {| Submission.post_hint := None;
       Submission.is_gallery := None;
       Submission.is_video := Some false;
       Submission.has_poll_data := false;
       Submission.has_crosspost_parent := false;
       Submission.is_self := true;
       Submission.media := Some None;
       Submission.secure_media := Some None;
       Submission.author := None;
       Submission.id := py "1abcde";
       Submission.title := py "Weekly Megathread";
       Submission.url := py "https://example.org/";
       Submission.ups := 3;
       Submission.upvote_ratio := 50 # 100;
       Submission.selftext := [];
       Submission.thumbnail := py "self";
       Submission.permalink := py "/r/rocq/comments/1abcde/" |} in
  deleted ∈ take (default reddit_top_posts_limit None) [deleted]
  ∧ Submission.author deleted = None
  ∧ _retrieve_hot_posts ascii_lower [deleted] None = Raise AttributeError.
Proof.
  cbv zeta.
  lazymatch goal with
  | |- ?h1 ∧ ?h2 ∧ _ =>
      assert h1 as H1 by left; assert h2 as H2 by reflexivity
  end.
  split_and!; [exact H1|exact H2|].
  exact (retrieve_hot_posts_unreadable ascii_lower _ None _ H1 (or_introl H2)).
Defined.

(** ** The paper pipeline *)

Lemma map_results_ok {A B} (f : A → result B) (items : list A) :
  (∀ x, x ∈ items → ∃ y, f x = Ok y) →
  ∃ ys, map_results f items = Ok ys ∧ Forall2 (λ x y, f x = Ok y) items ys.
Proof.
  induction items as [|x items IH]; intros Hall; simpl.
  - by exists [].
  - destruct (Hall x) as [y Hy]; [by left|]. rewrite Hy.
    destruct IH as (ys & -> & Hys); [intros z Hz; apply Hall; by right|].
    exists (y :: ys). split; [done|]. by constructor.
Qed.

Lemma map_results_raise {A B} (f : A → result B) (items : list A)
    (x : A) (e : exn) :
  x ∈ items → f x = Raise e → ∃ e', map_results f items = Raise e'.
Proof.
  intros Hin Hx. induction items as [|z items IH]; simpl.
  - by apply elem_of_nil in Hin.
  - destruct (f z) as [y|e1] eqn:Hz; [|by exists e1].
    apply elem_of_cons in Hin as [->|Hin]; [congruence|].
    destruct (IH Hin) as [e' ->]. by exists e'.
Qed.

Lemma saved_ids_open_write_ne (fs : files) (k : key) (content : str)
    (d : date) :
  k ≠ arxiv_ids_s3_key d →
  saved_ids (open_write fs k content) d = saved_ids fs d.
Proof.
  intros Hk. unfold saved_ids, open_write. by rewrite lookup_insert_ne.
Qed.



Section PaperPipelineProperties.
Variable isdigit : N → bool.
Variable summarize : str → result str.

Lemma paper_run_Ok (fs : files) (today : date) (response : listing_response)
    (old retrieved markdowns : list str) :
  _load_old_arxiv_ids fs today = Ok old →
  retrieve_from_hugging_face isdigit response = Ok retrieved →
  map_results (_process_paper summarize) (_remove_duplicates old retrieved)
  = Ok markdowns →
  PaperSummarizer__call__ isdigit summarize fs today response
  = (PaperSummarizer._store_summaries
       (_save_arxiv_ids fs today (_remove_duplicates old retrieved))
       today markdowns,
     Ok ()).
Proof.
  intros Hold Hnew Hmd. unfold PaperSummarizer__call__.
  rewrite Hold. cbn [mbind result_bind]. rewrite Hnew.
  cbn [mbind result_bind]. by rewrite Hmd.
Qed.

Lemma paper_run_Ok_inv (fs fs1 : files) (today : date)
    (response : listing_response) :
  PaperSummarizer__call__ isdigit summarize fs today response = (fs1, Ok ()) →
  ∃ old retrieved markdowns,
    _load_old_arxiv_ids fs today = Ok old
    ∧ retrieve_from_hugging_face isdigit response = Ok retrieved
    ∧ map_results (_process_paper summarize)
        (_remove_duplicates old retrieved) = Ok markdowns
    ∧ fs1 = PaperSummarizer._store_summaries
              (_save_arxiv_ids fs today (_remove_duplicates old retrieved))
              today markdowns.
Proof.
  unfold PaperSummarizer__call__.
  destruct (_load_old_arxiv_ids fs today) as [old|]; [|done].
  cbn [mbind result_bind].
  destruct (retrieve_from_hugging_face isdigit response) as [retrieved|];
    [|done].
  cbn [mbind result_bind].
  destruct (map_results _ _) as [markdowns|] eqn:Hmd; [|done].
  cbn [mbind result_bind]. intros [= <-]. by exists old, retrieved, markdowns.
Qed.

Lemma process_paper_Ok (arxiv_id markdown : str) :
  _process_paper summarize arxiv_id = Ok markdown ↔
    ∃ summary,
      summarize (paper_info_arxiv_id arxiv_id) = Ok summary
      ∧ markdown = _stylize_paper_info summary.
Proof.
  unfold _process_paper.
  destruct (summarize (paper_info_arxiv_id arxiv_id)) as [summary|];
    cbn [mbind result_bind].
  - split; [intros [= <-]; eauto|]. by intros (s & [= <-] & ->).
  - split; [done|]. by intros (s & ? & _).
Qed.

(** X16.  When every new paper is processed without an error, the run leaves
    two files for the day: the identifier file holds the new identifiers,
    one per line, and the digest holds their cleaned summaries, in the same
    order, joined by the separator.  No other file changes. *)
Theorem paper_run_writes_ids_and_digest (fs : files) (today : date)
    (response : listing_response) (old retrieved : list str) :
  _load_old_arxiv_ids fs today = Ok old →
  retrieve_from_hugging_face isdigit response = Ok retrieved →
  (∀ x, x ∈ _remove_duplicates old retrieved →
        ∃ summary, summarize (paper_info_arxiv_id x) = Ok summary) →
  ∃ fs' markdowns,
    PaperSummarizer__call__ isdigit summarize fs today response
    = (fs', Ok ())
    ∧ Forall2 (λ x markdown,
                 ∃ summary,
                   summarize (paper_info_arxiv_id x) = Ok summary
                   ∧ markdown = _stylize_paper_info summary)
        (_remove_duplicates old retrieved) markdowns
    ∧ fs' !! arxiv_ids_s3_key today
      = Some (join [LF] (_remove_duplicates old retrieved))
    ∧ fs' !! paper_summary_index_s3_key today
      = Some (join paper_separator markdowns)
    ∧ ∀ k, k ≠ arxiv_ids_s3_key today →
           k ≠ paper_summary_index_s3_key today →
           fs' !! k = fs !! k.
Proof.
  intros Hold Hnew Hall.
  destruct (map_results_ok (_process_paper summarize)
              (_remove_duplicates old retrieved)) as (markdowns & Hmd & Hrel).
  { intros x Hx. destruct (Hall x Hx) as [summary Hs].
    exists (_stylize_paper_info summary). apply process_paper_Ok. eauto. }
  eexists _, markdowns. split; [by apply paper_run_Ok|].
  unfold PaperSummarizer._store_summaries, _save_arxiv_ids, open_write.
  split_and!.
  - eapply Forall2_impl; [exact Hrel|]. intros x md. apply process_paper_Ok.
  - by rewrite lookup_insert_ne, lookup_insert_eq.
  - by rewrite lookup_insert_eq.
  - intros k Hk1 Hk2. by rewrite !lookup_insert_ne.
Qed.

(** X17.  A run is all or nothing: when the listing cannot be retrieved, or
    processing any one of the new papers raises, the run raises and no file
    is written. *)
Theorem paper_run_all_or_nothing (fs : files) (today : date)
    (response : listing_response) :
  (∀ e, retrieve_from_hugging_face isdigit response = Raise e →
        PaperSummarizer__call__ isdigit summarize fs today response
        = (fs, Raise e))
  ∧ (∀ old retrieved x e,
       _load_old_arxiv_ids fs today = Ok old →
       retrieve_from_hugging_face isdigit response = Ok retrieved →
       x ∈ _remove_duplicates old retrieved →
       summarize (paper_info_arxiv_id x) = Raise e →
       ∃ e', PaperSummarizer__call__ isdigit summarize fs today response
             = (fs, Raise e')).
Proof.
  split.
  - intros e He. unfold PaperSummarizer__call__.
    rewrite load_old_arxiv_ids_spec. cbn [mbind result_bind]. by rewrite He.
  - intros old retrieved x e Hold Hnew Hx He.
    destruct (map_results_raise (_process_paper summarize)
                (_remove_duplicates old retrieved) x e Hx) as [e' Hmd].
    { unfold _process_paper. by rewrite He. }
    exists e'. unfold PaperSummarizer__call__.
    rewrite Hold. cbn [mbind result_bind]. rewrite Hnew.
    cbn [mbind result_bind]. by rewrite Hmd.
Qed.


(** X19.  A paper processed by a run on day [D] is not new to any run of the
    seven following days: once its identifier (not empty, free of line
    boundaries) is in the day's file, the history loaded from the store the
    run left holds it, and [_remove_duplicates] drops it from any batch. *)
Theorem paper_run_not_processed_again (fs fs1 : files) (D today : date)
    (response : listing_response) (old retrieved : list str) (x : str) :
  PaperSummarizer__call__ isdigit summarize fs D response = (fs1, Ok ()) →
  _load_old_arxiv_ids fs D = Ok old →
  retrieve_from_hugging_face isdigit response = Ok retrieved →
  x ∈ _remove_duplicates old retrieved →
  x ≠ [] → no_linebreak x →
  (D < today ≤ D + 7)%Z →
  ∃ old1,
    _load_old_arxiv_ids fs1 today = Ok old1
    ∧ x ∈ old1
    ∧ ∀ candidates, x ∉ _remove_duplicates old1 candidates.
Proof.
  intros (old' & retrieved' & markdowns & Hold' & Hnew' & Hmd & ->)%paper_run_Ok_inv
    Hold Hnew Hx Hne Hlb Hwin.
  assert (old' = old) as -> by congruence.
  assert (retrieved' = retrieved) as -> by congruence.
  eexists. split; [apply load_old_arxiv_ids_spec|].
  assert (x ∈ concat
    ((λ i, saved_ids
             (PaperSummarizer._store_summaries
                (_save_arxiv_ids fs D (_remove_duplicates old retrieved)) D
                markdowns) (today - i)%Z) <$> history_offsets)) as Hin.
  { apply elem_of_concat. eexists. split.
    - apply list_elem_of_fmap. exists (today - D)%Z. split; [done|].
      apply elem_of_history_offsets. lia.
    - replace (today - (today - D))%Z with D by lia.
      unfold PaperSummarizer._store_summaries.
      rewrite saved_ids_open_write_ne by done.
      rewrite saved_ids_save_eq. by apply elem_of_splitlines_join. }
  split; [done|]. intros candidates Hc.
  by apply elem_of_remove_duplicates in Hc as [_ ?].
Qed.
End PaperPipelineProperties.

Lemma paper_run_writes_ids_and_digest_witness :
  let summarize := λ arxiv_id : str, Ok (py "Summary of " ++ arxiv_id) in
  let response := Articles [[Some (py "/papers/2401.01234")]] in
  _load_old_arxiv_ids ∅ 738886 = Ok []
  ∧ retrieve_from_hugging_face ascii_isdigit response = Ok [py "2401.01234"]
  ∧ ∃ fs' markdowns,
      PaperSummarizer__call__ ascii_isdigit summarize ∅ 738886 response
      = (fs', Ok ())
      ∧ fs' !! arxiv_ids_s3_key 738886
        = Some (join [LF] (_remove_duplicates [] [py "2401.01234"]))
      ∧ fs' !! paper_summary_index_s3_key 738886
        = Some (join paper_separator markdowns).
Proof.
  cbv zeta.
  lazymatch goal with
  | |- ?h1 ∧ ?h2 ∧ _ =>
      assert h1 as H1 by (vm_compute; reflexivity);
      assert h2 as H2 by (vm_compute; reflexivity)
  end.
  split_and!; [exact H1|exact H2|].
  destruct (paper_run_writes_ids_and_digest ascii_isdigit
              (λ arxiv_id : str, Ok (py "Summary of " ++ arxiv_id))
              ∅ 738886 _ [] _ H1 H2)
    as (fs' & markdowns & Hrun & _ & Hids & Hdigest & _).
  { intros x _. eexists. reflexivity. }
  exists fs', markdowns.
  split; [exact Hrun|]. split; [exact Hids|exact Hdigest].
Defined.

Lemma paper_run_all_or_nothing_witness :
  let summarize := λ arxiv_id : str,
    (Raise (OtherException "summarization failed") : result str) in
  let response := Articles [[Some (py "/papers/2401.01234")]] in
  _load_old_arxiv_ids ∅ 738886 = Ok []
  ∧ retrieve_from_hugging_face ascii_isdigit response = Ok [py "2401.01234"]
  ∧ py "2401.01234" ∈ _remove_duplicates [] [py "2401.01234"]
  ∧ ∃ e', PaperSummarizer__call__ ascii_isdigit summarize ∅ 738886 response
          = (∅, Raise e').
Proof.
  cbv zeta.
  lazymatch goal with
  | |- ?h1 ∧ ?h2 ∧ ?h3 ∧ _ =>
      assert h1 as H1 by (vm_compute; reflexivity);
      assert h2 as H2 by (vm_compute; reflexivity);
      assert h3 as H3 by (vm_compute; left)
  end.
  split_and!; [exact H1|exact H2|exact H3|].
  destruct (paper_run_all_or_nothing ascii_isdigit
              (λ arxiv_id : str,
                 (Raise (OtherException "summarization failed") : result str))
              ∅ 738886 (Articles [[Some (py "/papers/2401.01234")]]))
    as [_ Hfail].
  exact (Hfail [] _ _ _ H1 H2 H3 eq_refl).
Defined.


Lemma paper_run_not_processed_again_witness :
  let summarize := λ arxiv_id : str, Ok (py "Summary of " ++ arxiv_id) in
  let response := Articles [[Some (py "/papers/2401.01234")]] in
  let fs1 :=
    (PaperSummarizer__call__ ascii_isdigit summarize ∅ 738886 response).1 in
  PaperSummarizer__call__ ascii_isdigit summarize ∅ 738886 response
  = (fs1, Ok ())
  ∧ (738886 < 738887 ≤ 738886 + 7)%Z
  ∧ ∃ old1,
      _load_old_arxiv_ids fs1 738887 = Ok old1
      ∧ py "2401.01234" ∈ old1
      ∧ ∀ candidates, py "2401.01234" ∉ _remove_duplicates old1 candidates.
Proof.
  cbv zeta.
  lazymatch goal with
  | |- ?h1 ∧ _ => assert h1 as H1 by (vm_compute; reflexivity)
  end.
  assert (738886 < 738887 ≤ 738886 + 7)%Z as Hwin by lia.
  split; [exact H1|]. split; [exact Hwin|].
  apply (paper_run_not_processed_again ascii_isdigit _ ∅ _ 738886 738887
           (Articles [[Some (py "/papers/2401.01234")]]) []
           [py "2401.01234"] _ H1).
  - by vm_compute.
  - by vm_compute.
  - vm_compute. left.
  - done.
  - vm_compute. repeat constructor.
  - exact Hwin.
Defined.

(** ** The Reddit pipeline *)

Section RedditPipelineProperties.
Variable lower : str → str.
Variable summarize_post : RedditPost.t → result str.

Lemma posts_loop_ok (summary_of : RedditPost.t → str)
    (posts : list RedditPost.t) :
  (∀ post, post ∈ posts → summarize_post post = Ok (summary_of post)) →
  ∀ markdowns,
    posts_loop summarize_post posts markdowns
    = Ok (markdowns
          ++ ((λ post, _stylize_post post (summary_of post)) <$> posts)).
Proof.
  induction posts as [|post posts IH]; intros Hall markdowns; simpl.
  - by rewrite app_nil_r.
  - rewrite (Hall post) by left. cbn [mbind result_bind].
    rewrite IH by (intros p Hp; apply Hall; by right).
    by rewrite <- app_assoc.
Qed.

Lemma subreddits_loop_ok (summary_of : RedditPost.t → str)
    (hots : list (list Submission.t)) :
  (∀ hot post, hot ∈ hots → post ∈ take reddit_top_posts_limit hot →
               readable post = true) →
  (∀ post, summarize_post post = Ok (summary_of post)) →
  ∀ markdowns,
    subreddits_loop lower summarize_post hots markdowns
    = Ok (markdowns
          ++ concat
               ((λ hot,
                   (λ post, _stylize_post post (summary_of post))
                     <$> (post_of
                            <$> List.filter (desired lower)
                                  (take reddit_top_posts_limit hot)))
                  <$> hots)).
Proof.
  intros Hread Hsum.
  induction hots as [|hot hots IH]; intros markdowns.
  - simpl. by rewrite app_nil_r.
  - cbn [subreddits_loop].
    unfold _retrieve_hot_posts. cbn [default].
    rewrite hot_posts_loop_complete.
    2: { apply Forall_forall. intros post Hpost.
         apply (Hread hot); [by left|done]. }
    cbn [app].
    cbn [mbind result_bind]. rewrite (posts_loop_ok summary_of) by auto.
    cbn [mbind result_bind].
    rewrite IH by (intros h p Hh; apply Hread; by right).
    by rewrite fmap_cons, <- app_assoc.
Qed.

Lemma subreddits_loop_unreadable (hots : list (list Submission.t))
    (hot : list Submission.t) (post : Submission.t) :
  hot ∈ hots → post ∈ take reddit_top_posts_limit hot →
  readable post = false →
  ∀ markdowns, ∃ e,
    subreddits_loop lower summarize_post hots markdowns = Raise e.
Proof.
  intros Hhot Hpost Hbad.
  induction hots as [|h hots IH]; intros markdowns.
  - by apply elem_of_nil in Hhot.
  - cbn [subreddits_loop].
    destruct (_retrieve_hot_posts lower h None) as [posts|e] eqn:Hh;
      cbn [mbind result_bind]; [|by exists e].
    destruct (posts_loop summarize_post posts markdowns) as [mds|e];
      cbn [mbind result_bind]; [|by exists e].
    apply elem_of_cons in Hhot as [->|Hhot]; [|by apply IH].
    unfold _retrieve_hot_posts in Hh.
    rewrite (hot_posts_loop_unreadable lower _ post Hpost Hbad) in Hh.
    done.
Qed.

(** X20.  When every submission considered can be read and every post is
    summarized, the digest holds one section per post kept, the subreddits
    in their configured order and the posts in the order of each listing,
    joined by the separator. *)
Theorem reddit_run_writes_digest (summary_of : RedditPost.t → str)
    (fs : files) (today : date) (hots : list (list Submission.t)) :
  (∀ hot post, hot ∈ hots → post ∈ take reddit_top_posts_limit hot →
               readable post = true) →
  (∀ post, summarize_post post = Ok (summary_of post)) →
  ∃ fs',
    RedditExplorer__call__ lower summarize_post fs today hots = (fs', Ok ())
    ∧ fs' !! reddit_summary_index_s3_key today
      = Some (join reddit_separator
                (concat
                   ((λ hot,
                       (λ post, _stylize_post post (summary_of post))
                         <$> (post_of
                                <$> List.filter (desired lower)
                                      (take reddit_top_posts_limit hot)))
                      <$> hots)))
    ∧ ∀ k, k ≠ reddit_summary_index_s3_key today → fs' !! k = fs !! k.
Proof.
  intros Hread Hsum. unfold RedditExplorer__call__.
  rewrite (subreddits_loop_ok summary_of hots Hread Hsum). simpl.
  eexists. split; [done|].
  unfold RedditExplorer._store_summaries, open_write. split.
  - by rewrite lookup_insert_eq.
  - intros k Hk. by rewrite lookup_insert_ne.
Qed.

(** X21.  One submission that cannot be read (its author is gone, or it is
    a video whose media description is [None]) among the first ten of any
    configured subreddit makes the whole run raise, and no digest is
    written. *)
Theorem reddit_run_aborts_on_unreadable_post (fs : files) (today : date)
    (hots : list (list Submission.t)) (hot : list Submission.t)
    (post : Submission.t) :
  hot ∈ hots → post ∈ take reddit_top_posts_limit hot →
  Submission.author post = None
  ∨ (__judge_post_type post = Video
     ∧ (Submission.media post = Some None
        ∨ (Submission.media post = None
           ∧ Submission.secure_media post = Some None))) →
  ∃ e,
    RedditExplorer__call__ lower summarize_post fs today hots
    = (fs, Raise e).
Proof.
  intros Hhot Hpost Hbad%readable_false. unfold RedditExplorer__call__.
  destruct (subreddits_loop_unreadable hots hot post Hhot Hpost Hbad [])
    as [e ->].
  by exists e.
Qed.
End RedditPipelineProperties.

Lemma reddit_run_writes_digest_witness :
  let post :=
    {| Submission.post_hint := None;
       Submission.is_gallery := None;
       Submission.is_video := Some false;
       Submission.has_poll_data := false;
       Submission.has_crosspost_parent := false;
       Submission.is_self := true;
       Submission.media := Some None;
       Submission.secure_media := Some None;
       Submission.author := Some (py "alice");
       Submission.id := py "1abcde";
       Submission.title := py "A verified parser";
       Submission.url := py "https://example.org/";
       Submission.ups := 120;
       Submission.upvote_ratio := 93 # 100;
       Submission.selftext := [];
       Submission.thumbnail := py "self";
       Submission.permalink := py "/r/rocq/comments/1abcde/" |} in
  let summary_of := λ _ : RedditPost.t, py "Summary." in
  let summarize_post := λ p : RedditPost.t, Ok (summary_of p) in
  (∀ hot p, hot ∈ [[post]] → p ∈ take reddit_top_posts_limit hot →
            readable p = true)
  ∧ ∃ fs',
      RedditExplorer__call__ ascii_lower summarize_post ∅ 738886 [[post]]
      = (fs', Ok ())
      ∧ fs' !! reddit_summary_index_s3_key 738886
        = Some ([LF] ++ py "# A verified parser" ++ [LF; LF]
                ++ py "**Upvotes**: 120" ++ [LF; LF] ++ [LF; LF]
                ++ py "[View on Reddit]"
                ++ py "(https://www.reddit.com/r/rocq/comments/1abcde/)"
                ++ [LF; LF] ++ py "Summary." ++ [LF]).
Proof.
  cbv zeta.
  lazymatch goal with
  | |- ?hyp ∧ _ => assert hyp as Hread
  end.
  { intros hot p Hhot Hp.
    apply list_elem_of_singleton in Hhot as ->.
    cbn [take reddit_top_posts_limit] in Hp.
    by apply list_elem_of_singleton in Hp as ->. }
  split; [exact Hread|].
  destruct (reddit_run_writes_digest ascii_lower
              (λ p : RedditPost.t, Ok (py "Summary."))
              (λ _ : RedditPost.t, py "Summary.") ∅ 738886 _ Hread
              (λ _, eq_refl)) as (fs' & Hrun & Hdigest & _).
  exists fs'. split; [exact Hrun|]. rewrite Hdigest. by vm_compute.
Defined.

Lemma reddit_run_aborts_on_unreadable_post_witness :
  let deleted :=
    {| Submission.post_hint := None;
       Submission.is_gallery := None;
       Submission.is_video := Some false;
       Submission.has_poll_data := false;
       Submission.has_crosspost_parent := false;
       Submission.is_self := true;
       Submission.media := Some None;
       Submission.secure_media := Some None;
       Submission.author := None;
       Submission.id := py "1abcde";
       Submission.title := py "Weekly Megathread";
       Submission.url := py "https://example.org/";
       Submission.ups := 3;
       Submission.upvote_ratio := 50 # 100;
       Submission.selftext := [];
       Submission.thumbnail := py "self";
       Submission.permalink := py "/r/rocq/comments/1abcde/" |} in
  let summarize_post := λ _ : RedditPost.t, Ok (py "Summary.") in
  [deleted] ∈ [[deleted]]
  ∧ deleted ∈ take reddit_top_posts_limit [deleted]
  ∧ Submission.author deleted = None
  ∧ ∃ e,
      RedditExplorer__call__ ascii_lower summarize_post ∅ 738886 [[deleted]]
      = (∅, Raise e).
Proof.
  cbv zeta.
  lazymatch goal with
  | |- ?h1 ∧ ?h2 ∧ ?h3 ∧ _ =>
      assert h1 as H1 by left; assert h2 as H2 by left;
      assert h3 as H3 by reflexivity
  end.
  split; [exact H1|]. split; [exact H2|]. split; [exact H3|].
  exact (reddit_run_aborts_on_unreadable_post ascii_lower _ ∅ 738886 _ _ _
           H1 H2 (or_introl H3)).
Defined.

(** ** Entry points *)

(** X22.  An event whose source is not aws.events is acknowledged with
    status 200 by the Reddit handler without the pipeline being run, whatever
    the pipeline would do; and an exception that is not an [Exception]
    (a keyboard interrupt, a system exit) raised by the pipeline passes
    through the handler unchanged. *)
Theorem reddit_lambda_handler_outcomes (ev : event) (pipeline : result ()) :
  (scheduled ev = false →
   reddit_explorer.lambda_handler ev pipeline = Ok {| statusCode := 200 |})
  ∧ (∀ e, scheduled ev = true → pipeline = Raise e →
          is_Exception e = false →
          reddit_explorer.lambda_handler ev pipeline = Raise e).
Proof.
  unfold reddit_explorer.lambda_handler. split.
  - by intros ->.
  - intros e -> -> He. by destruct e.
Qed.

Lemma reddit_lambda_handler_outcomes_witness :
  scheduled (∅ : event) = false
  ∧ reddit_explorer.lambda_handler ∅ (Raise (OtherException "unused"))
    = Ok {| statusCode := 200 |}
  ∧ reddit_explorer.lambda_handler {[ "source"%string := py "aws.events" ]}
      (Raise KeyboardInterrupt)
    = Raise KeyboardInterrupt.
Proof.
  assert (scheduled (∅ : event) = false) as H1 by reflexivity.
  split; [exact H1|]. split.
  - exact (proj1 (reddit_lambda_handler_outcomes ∅ _) H1).
  - exact (proj2 (reddit_lambda_handler_outcomes
                    {[ "source"%string := py "aws.events" ]}
                    (Raise KeyboardInterrupt))
             KeyboardInterrupt eq_refl eq_refl eq_refl).
Defined.

(** ** The extractor on a parsed page *)

Lemma page_element_nested_ind (P : page_element → Prop) :
  (∀ text, P (NavigableString text)) →
  (∀ text, P (Comment text)) →
  (∀ name contents, Forall P contents → P (Tag name contents)) →
  ∀ e, P e.
Proof.
  intros Hstring Hcomment Htag. fix IH 1.
  intros [text|text|name contents]; [apply Hstring|apply Hcomment|].
  apply Htag. induction contents as [|c contents IHl]; constructor.
  - apply IH.
  - apply IHl.
Qed.

Lemma boilerplate_Tag (name : str) (contents : list page_element) :
  boilerplate (Tag name contents)
  ↔ name ∈ decomposed_tags ∨ Forall boilerplate contents.
Proof.
  cbn [boilerplate]. apply or_iff_compat_l.
  induction contents as [|c contents IH].
  - split; [by constructor|done].
  - rewrite Forall_cons. by rewrite IH.
Qed.

Lemma stripped_strings_decompose_list (body : list page_element) :
  Forall (λ e, flat_map stripped_strings (decompose e) = [] ↔ boilerplate e)
    body →
  flat_map stripped_strings (flat_map decompose body) = []
  ↔ Forall boilerplate body.
Proof.
  induction 1 as [|e body He _ IH]; cbn [flat_map].
  - split; [by constructor|done].
  - rewrite flat_map_app, Forall_cons, <- IH, <- He. split.
    + by intros [? ?]%app_eq_nil.
    + by intros [-> ->].
Qed.

(** An element is boilerplate exactly when nothing of it is left in the
    text of the body once the five kinds of element are decomposed. *)
Lemma stripped_strings_decompose (e : page_element) :
  flat_map stripped_strings (decompose e) = [] ↔ boilerplate e.
Proof.
  induction e as [text|text|name contents IH] using page_element_nested_ind.
  - cbn [decompose flat_map stripped_strings boilerplate]. rewrite app_nil_r.
    by destruct (strip text).
  - done.
  - rewrite boilerplate_Tag. cbn [decompose]. case_bool_decide as Hname.
    + split; [by left|done].
    + cbn [flat_map stripped_strings]. rewrite app_nil_r.
      rewrite (stripped_strings_decompose_list _ IH). split; [by right|].
      by intros [?|?].
Qed.

Lemma stripped_strings_boilerplate (body : list page_element) :
  flat_map stripped_strings (flat_map decompose body) = []
  ↔ Forall boilerplate body.
Proof.
  apply stripped_strings_decompose_list, Forall_forall.
  intros e _. apply stripped_strings_decompose.
Qed.

Section BodyTextOfPageProperties.
Variable lower : str → str.

(** C7, as amended.  Markup that the parser rejects makes the extractor
    raise: the exception is not caught.  On every page the parser accepts
    the extractor returns a string, and that string is empty when the
    document has no body, when the body holds nothing but header, nav,
    footer, script and style elements (with white space and comments around
    them), and more generally when every line of text left in the body is
    shorter than [min_line_length] once stripped. *)
Theorem extract_body_text_of_page_spec (min_line_length : nat) :
  _extract_body_text_of_page lower ParserRejectedMarkup min_line_length
  = Raise (OtherException "ParserRejectedMarkup")
  ∧ ∀ soup, ∃ out,
      _extract_body_text_of_page lower (BeautifulSoup soup) min_line_length
      = Ok out
      ∧ (soup_body soup = None → out = [])
      ∧ (∀ body, soup_body soup = Some body → Forall boilerplate body →
                 out = [])
      ∧ (∀ text, body_text soup = Some text →
                 (∀ line, line ∈ splitlines text →
                          (length (strip line) < min_line_length)%nat) →
                 out = []).
Proof.
  split; [done|]. intros soup. eexists. split; [done|].
  destruct (extract_body_text_empty lower min_line_length)
    as (Hnone & Hnil & Hshort).
  split_and!.
  - intros Hbody. unfold body_text. by rewrite Hbody.
  - intros body Hbody Hall. unfold body_text, get_text. rewrite Hbody.
    by rewrite (proj2 (stripped_strings_boilerplate body) Hall).
  - intros text -> Hlines. by apply Hshort.
Qed.
End BodyTextOfPageProperties.

(** C7, as stated, fails on malformed markup.  On the page
    <html><body><![foo bar]>text</body></html> the parser [html.parser]
    raises an assertion error, which BeautifulSoup raises again as
    [ParserRejectedMarkup]; [_extract_body_text] has no handler around the
    parse, so it raises instead of returning an empty string. *)
Lemma extract_body_text_rejected_markup_raises :
  _extract_body_text_of_page ascii_lower ParserRejectedMarkup
    default_min_line_length
  = Raise (OtherException "ParserRejectedMarkup")
  ∧ ∀ out : str,
      _extract_body_text_of_page ascii_lower ParserRejectedMarkup
        default_min_line_length
      ≠ Ok out.
Proof. split; [done|]. by intros out. Qed.

Lemma extract_body_text_of_page_spec_witness :
  let body :=
    [ Tag (py "header") [Tag (py "h1") [NavigableString (py "A site")]];
      NavigableString ([LF] ++ py "  ");
      Tag (py "div")
        [ Tag (py "nav") [Tag (py "a") [NavigableString (py "Home")]];
          Comment (py " tracking ") ];
      Tag (py "script") [NavigableString (py "var visits = 1;")];
      Tag (py "footer") [NavigableString (py "All rights reserved.")] ] in
  let soup :=
    [ Comment (py "DOCTYPE html");
      Tag (py "html")
        [ Tag (py "head") [Tag (py "title") [NavigableString (py "A site")]];
          Tag (py "body") body ] ] in
  soup_body soup = Some body
  ∧ Forall boilerplate body
  ∧ _extract_body_text_of_page ascii_lower (BeautifulSoup soup) 40 = Ok [].
Proof.
  cbv zeta.
  lazymatch goal with
  | |- ?h1 ∧ ?h2 ∧ _ =>
      assert h1 as H1 by reflexivity;
      assert h2 as H2
  end.
  { repeat first
      [ apply Forall_nil_2
      | apply Forall_cons_2
      | exact I
      | (cbn [boilerplate]; reflexivity)
      | by (apply boilerplate_Tag; left; repeat constructor)
      | (apply boilerplate_Tag; right) ]. }
  split; [exact H1|]. split; [exact H2|].
  lazymatch type of H1 with
  | soup_body ?soup = _ =>
      destruct (extract_body_text_of_page_spec ascii_lower 40) as [_ Hok];
      destruct (Hok soup) as (out & -> & _ & Hbody & _)
  end.
  f_equal. exact (Hbody _ H1 H2).
Defined.
